(** * EnergyBalance: the hourly power-balance dispatch of the four scripts

    [SwedenPowerBalance.py], [SE300wind.py], [SvK_EF_nuclear.py] and
    [SvK_EF_wind.py] each fill a pandas frame hour by hour: row [0] is
    initialised, then [for i in range(1, len(df))] reads the inputs of row
    [i] and the stores of row [i-1] and writes the outputs of row [i].

    Conventions of the embedding.
    - Numbers.  The scripts compute on binary64 floats; the embedding takes
      the same expressions over the rationals [Q], so a decimal literal such
      as [1.1] is the rational 11/10 and no rounding happens.
    - The frame is the list of its rows, [df.loc[i, c]] is the field [c] of
      [df !!! i] and an assignment to cells of row [i] is [<[i := r]> df].
      The frames of the scripts carry a contiguous index [0 .. len(df)-1]
      and every access of the loops is within it.  On an empty frame pandas
      would add a row when row 0 is initialised; the embedding leaves the
      empty frame empty, and every result speaks of the rows of the frame.
    - A cell that pandas has not written yet holds an arbitrary number.
    - [min]/[max] of Python return their first argument unless the second is
      strictly smaller/larger, as [Qmin]/[Qmax] do; [min(a, b, c)] is
      [Qmin (Qmin a b) c]. *)

From Stdlib Require Import QArith Qminmax Qround Lqa Lia.
From stdpp Require Import base list.

Open Scope Q_scope.

(** ** Comparisons of the source as boolean tests *)

Definition Qleb (x y : Q) : bool := Qle_bool x y.
Definition Qgeb (x y : Q) : bool := Qle_bool y x.
Definition Qltb (x y : Q) : bool := negb (Qle_bool y x).

Notation "x <=? y" := (Qleb x y) (at level 70, no associativity) : Q_scope.
Notation "x >=? y" := (Qgeb x y) (at level 70, no associativity) : Q_scope.
Notation "x <? y" := (Qltb x y) (at level 70, no associativity) : Q_scope.

(** ** [for i in range(lo, hi)]: the body threaded through a state *)

Definition for_range {S : Type} (lo hi : nat) (body : nat -> S -> S) (s : S) : S :=
  foldl (fun acc i => body i acc) s (seq lo (hi - lo)).

(** ** The module [random]

    The Mersenne Twister itself is library code: [mt s k] stands for the
    [k]-th float [random.random()] returns after [random.seed(s)].  The
    generator is global state, a seed and a position in its stream. *)

Record rng := mk_rng { rng_seed : Z; rng_pos : nat }.

Definition random_seed (s : Z) (_ : rng) : rng := mk_rng s 0.

Definition random_random (mt : Z -> nat -> Q) (g : rng) : Q * rng :=
  (mt (rng_seed g) (rng_pos g), mk_rng (rng_seed g) (S (rng_pos g))).

(** ** The reservoir variants: [SwedenPowerBalance.py] and [SE300wind.py] *)

(** One row of the frame.  [Wind], [Tout], [Nuclear] and [Inflow] are filled
    before [balance()] runs; the others are written by [balance()] and by the
    hydrogen loop of the main script. *)
Record hrow := mk_hrow {
  Wind : Q; Tout : Q; Nuclear : Q; Inflow : Q;
  Store : Q; Pout : Q; Waout : Q; Import : Q; Export : Q; Pnet : Q;
  Residual : Q; Hydrogen : Q; eStore : Q
}.

#[global] Instance hrow_inhabited : Inhabited hrow :=
  populate (mk_hrow 0 0 0 0 0 0 0 0 0 0 0 0 0).

(** The module-level constants [balance()] reads. *)
Record hconfig := mk_hconfig { wlim : Q; impl : Q; expl : Q; constexp : Q }.

(** The program state: the frame and the global generator. *)
Record hstate := mk_hstate { h_df : list hrow; h_gen : rng }.

(** The state of the balance loop: the frame, the generator and [ema_old]. *)
Record hloop := mk_hloop { l_df : list hrow; l_gen : rng; l_ema : Q }.

(** What one hour decides: the final [water], [imp], [exp] and [ema]. *)
Record hdispatch := mk_hdispatch { d_water : Q; d_imp : Q; d_exp : Q; d_ema : Q }.

Definition imp_level : Q := 1.1.
Definition alfa : Q := 0.03.

(** The cells written for row 0 by the head of [balance()]. *)
Definition hinit_row (c : hconfig) (r : hrow) : hrow :=
  mk_hrow (Wind r) (Tout r) (Nuclear r) (Inflow r)
    20000 (Tout r) 0 0 0 (Tout r - constexp c)
    (Residual r) (Hydrogen r) (eStore r).

(** The cells written for row [i] at the end of the loop body. *)
Definition hwrite_row (r : hrow) (ostore : Q) (d : hdispatch) : hrow :=
  let wind := Wind r in
  let con := Nuclear r in
  let inflow := Inflow r in
  mk_hrow (Wind r) (Tout r) (Nuclear r) (Inflow r)
    (ostore - d_water d + inflow)
    (wind + d_water d + con + d_imp d - d_exp d)
    (d_water d) (d_imp d) (d_exp d)
    (wind + d_water d + con + d_imp d)
    (Residual r) (Hydrogen r) (eStore r).

Module SwedenPowerBalance.

(** Lines 114-143 of the loop body, on the values read from the frame and
    the float [u] drawn from the generator. *)
Definition dispatch (c : hconfig) (wind load con ostore ema_old u : Q) : hdispatch :=
  let vlim := wlim c in
  let water :=
    if load - (wind + con) <=? 0 then 2
    else if load - (wind + con) >=? wlim c then Qmin vlim ostore
    else Qmin (Qmax (load - (wind + con)) 2) ostore in
  let imp :=
    if load - (wind + con + water) >=? 0
    then Qmin (load - (wind + con + water)) (impl c) else 0 in
  let exp :=
    if load - (wind + con + water) >=? 0
    then 0 else Qmin ((wind + con + water) - load) (expl c) in
  let new_rand := u * imp_level * 2 in
  let ema := alfa * new_rand + (1 - alfa) * ema_old in
  let rand_imp := Qmax ((ema - imp_level) * 9 + imp_level) 0 in
  let rand_imp := Qmin (Qmin rand_imp water) (impl c - imp) in
  mk_hdispatch (water - rand_imp) (imp + rand_imp) exp ema.

Definition balance_body (c : hconfig) (mt : Z -> nat -> Q) (i : nat) (s : hloop) : hloop :=
  let df := l_df s in
  let wind := Wind (df !!! i) in
  let load := Tout (df !!! i) in
  let con := Nuclear (df !!! i) in
  let ostore := Store (df !!! (i - 1)%nat) in
  let '(u, g) := random_random mt (l_gen s) in
  let d := dispatch c wind load con ostore (l_ema s) u in
  mk_hloop (<[i := hwrite_row (df !!! i) ostore d]> df) g (d_ema d).

Definition balance (c : hconfig) (mt : Z -> nat -> Q) (st : hstate) : hstate :=
  let df := <[0%nat := hinit_row c (h_df st !!! 0%nat)]> (h_df st) in
  let g := random_seed 5 (h_gen st) in
  let ema_old := imp_level in
  let s := for_range 1 (length df) (balance_body c mt) (mk_hloop df g ema_old) in
  mk_hstate (l_df s) (l_gen s).

(** The main script after [balance()]: the [Residual] column, then the
    hydrogen loop with its running totals [curtail] and [shortage]. *)
Record h2loop := mk_h2loop { h2_df : list hrow; h2_curtail : Q; h2_shortage : Q }.

Definition set_residual (r : hrow) : hrow :=
  mk_hrow (Wind r) (Tout r) (Nuclear r) (Inflow r)
    (Store r) (Pout r) (Waout r) (Import r) (Export r) (Pnet r)
    (Pout r - Tout r) (Hydrogen r) (eStore r).

Definition set_h2 (r : hrow) (hydrogen estore : Q) : hrow :=
  mk_hrow (Wind r) (Tout r) (Nuclear r) (Inflow r)
    (Store r) (Pout r) (Waout r) (Import r) (Export r) (Pnet r)
    (Residual r) hydrogen estore.

Definition hydrogen_body (i : nat) (s : h2loop) : h2loop :=
  let df := h2_df s in
  let res := Residual (df !!! i) in
  let estore := eStore (df !!! (i - 1)%nat) + res in
  if res >=? 0
  then mk_h2loop
         (<[i := set_h2 (df !!! i) (Hydrogen (df !!! (i - 1)%nat) + 0.02 * res) estore]> df)
         (h2_curtail s + res) (h2_shortage s)
  else mk_h2loop
         (<[i := set_h2 (df !!! i) (Hydrogen (df !!! (i - 1)%nat) + 0.05 * res) estore]> df)
         (h2_curtail s) (h2_shortage s - res).

Definition hydrogen (df : list hrow) : h2loop :=
  let df := set_residual <$> df in
  let df := <[0%nat := set_h2 (df !!! 0%nat) 0 0]> df in
  for_range 1 (length df) hydrogen_body (mk_h2loop df 0 0).

(** [balance()] followed by the hydrogen calculations. *)
Definition simulate (c : hconfig) (mt : Z -> nat -> Q) (st : hstate) : list hrow :=
  h2_df (hydrogen (h_df (balance c mt st))).

(** The constants of the script. *)
Definition config : hconfig := mk_hconfig 13 6 (10 - 4) 4.

End SwedenPowerBalance.

Module SE300wind.

(** Lines 114-143 of the loop body, on the values read from the frame and
    the float [u] drawn from the generator. *)
Definition dispatch (c : hconfig) (wind load con ostore ema_old u : Q) : hdispatch :=
  let water :=
    if (wind + con) - load >=? 0 then 2
    else if (wind + con) - load <=? - wlim c then Qmin (wlim c) ostore
    else Qmin (Qmax (load - (wind + con)) 2) ostore in
  let imp :=
    if (wind + con + water) - load <=? 0
    then Qmin (load - (wind + con + water)) (impl c) else 0 in
  let exp :=
    if (wind + con + water) - load <=? 0
    then 0 else Qmin ((wind + con + water) - load) (expl c) in
  let new_rand := u * imp_level * 2 in
  let ema := alfa * new_rand + (1 - alfa) * ema_old in
  let rand_imp := Qmax ((ema - imp_level) * 9 + imp_level) 0 in
  let rand_imp := Qmin (Qmin rand_imp (water - 2)) (impl c - imp) in
  mk_hdispatch (water - rand_imp) (imp + rand_imp) exp ema.

Definition balance_body (c : hconfig) (mt : Z -> nat -> Q) (i : nat) (s : hloop) : hloop :=
  let df := l_df s in
  let wind := Wind (df !!! i) in
  let load := Tout (df !!! i) in
  let con := Nuclear (df !!! i) in
  let ostore := Store (df !!! (i - 1)%nat) in
  let '(u, g) := random_random mt (l_gen s) in
  let d := dispatch c wind load con ostore (l_ema s) u in
  mk_hloop (<[i := hwrite_row (df !!! i) ostore d]> df) g (d_ema d).

Definition balance (c : hconfig) (mt : Z -> nat -> Q) (st : hstate) : hstate :=
  let df := <[0%nat := hinit_row c (h_df st !!! 0%nat)]> (h_df st) in
  let g := random_seed 5 (h_gen st) in
  let ema_old := imp_level in
  let s := for_range 1 (length df) (balance_body c mt) (mk_hloop df g ema_old) in
  mk_hstate (l_df s) (l_gen s).

(** The main script after [balance()]; [elyscap] is the constant set just
    before the loop, and the loop keeps four running totals. *)
Record h2loop := mk_h2loop {
  h2_df : list hrow; h2_curtail : Q; h2_curtailH2 : Q; h2_shortage : Q; h2_H2out : Q
}.

Definition hydrogen_body (elyscap : Q) (i : nat) (s : h2loop) : h2loop :=
  let df := h2_df s in
  let res := Residual (df !!! i) in
  let estore := eStore (df !!! (i - 1)%nat) + res in
  if res >=? 0
  then mk_h2loop
         (<[i := SwedenPowerBalance.set_h2 (df !!! i)
                   (Hydrogen (df !!! (i - 1)%nat) + 0.02 * Qmin res elyscap) estore]> df)
         (h2_curtail s + res) (h2_curtailH2 s + Qmax (res - elyscap) 0)
         (h2_shortage s) (h2_H2out s + 0.02 * res)
  else mk_h2loop
         (<[i := SwedenPowerBalance.set_h2 (df !!! i)
                   (Hydrogen (df !!! (i - 1)%nat) + 0.05 * res) estore]> df)
         (h2_curtail s) (h2_curtailH2 s)
         (h2_shortage s - res) (h2_H2out s - 0.05 * res).

Definition hydrogen (elyscap : Q) (df : list hrow) : h2loop :=
  let df := SwedenPowerBalance.set_residual <$> df in
  let df := <[0%nat := SwedenPowerBalance.set_h2 (df !!! 0%nat) 0 0]> df in
  for_range 1 (length df) (hydrogen_body elyscap) (mk_h2loop df 0 0 0 0).

Definition elyscap : Q := 0.

Definition simulate (c : hconfig) (mt : Z -> nat -> Q) (st : hstate) : list hrow :=
  h2_df (hydrogen elyscap (h_df (balance c mt st))).

Definition config : hconfig := mk_hconfig 13 6 (10 - 4) 4.

End SE300wind.

(** ** The hydrogen variant [SvK_EF_nuclear.py] *)

Module SvK_EF_nuclear.

(** [Wind], [Consumption] and [Heat] are filled before [balance()] runs. *)
Record row := mk_row {
  Wind : Q; Consumption : Q; Heat : Q;
  eStore : Q; Pout : Q; Water : Q; Import : Q; Export : Q; Residual : Q; Pnet : Q
}.

#[global] Instance row_inhabited : Inhabited row :=
  populate (mk_row 0 0 0 0 0 0 0 0 0 0).

Record config := mk_config {
  wlim : Q; constexp : Q; impl : Q; expl : Q; elyscap : Q; flexmax : Q
}.

(** The frame and the globals [H2high] and [H2low]. *)
Record state := mk_state { df : list row; H2high : Q; H2low : Q }.

Record dispatch_t := mk_dispatch {
  d_water : Q; d_imp : Q; d_exp : Q; d_eload : Q; d_flex : Q
}.

Definition init_row (c : config) (r : row) : row :=
  mk_row (Wind r) (Consumption r) (Heat r)
    0 (Consumption r) 0 0 0 0 (Consumption r - constexp c).

(** Lines 87-107 of the loop body. *)
Definition dispatch (c : config) (wind load con : Q) : dispatch_t :=
  let water :=
    if (wind + con) - load >=? 0 then 2
    else if (wind + con) - load <=? - wlim c then wlim c
    else Qmax (load - (wind + con)) 2 in
  if (wind + con + water) - load <=? 0
  then
    let flex := Qmin (load - (wind + con + water)) (flexmax c) in
    let imp := Qmin (load - (wind + con + water) - flex) (impl c) in
    mk_dispatch water imp 0 0 flex
  else
    let eload := Qmin ((wind + con + water) - load) (elyscap c) in
    let exp := Qmin ((wind + con + water) - load - eload) (expl c) in
    mk_dispatch water 0 exp eload 0.

(** Lines 110-116: the cells written for row [i]; [pestore] is
    [df.loc[i-1,'eStore']]. *)
Definition write_row (c : config) (r : row) (pestore : Q) (d : dispatch_t) : row :=
  let wind := Wind r in
  let con := Heat r in
  mk_row (Wind r) (Consumption r + (d_eload d - d_flex d)) (Heat r)
    (pestore + d_eload d + (flexmax c - d_flex d) - 9.7)
    (wind + d_water d + con + d_imp d - d_exp d)
    (d_water d) (d_imp d) (d_exp d) (Residual r)
    (wind + d_water d + con + d_imp d).

Definition balance_body (c : config) (i : nat) (s : state) : state :=
  let wind := Wind (df s !!! i) in
  let load := Consumption (df s !!! i) in
  let con := Heat (df s !!! i) in
  let d := dispatch c wind load con in
  mk_state
    (<[i := write_row c (df s !!! i) (eStore (df s !!! (i - 1)%nat)) d]> (df s))
    (H2high s + d_eload d)
    (H2low s + (flexmax c - d_flex d)).

Definition balance (c : config) (s : state) : state :=
  let s0 := mk_state (<[0%nat := init_row c (df s !!! 0%nat)]> (df s)) (H2high s) (H2low s) in
  for_range 1 (length (df s0)) (balance_body c) s0.

(** The constants of the script. *)
Definition script_config : config := mk_config 13 0 2.6 6 0 9.72.

End SvK_EF_nuclear.

(** ** The deficit-store variant [SvK_EF_wind.py] *)

Module SvK_EF_wind.

(** [Wind], [Heat] and [Consumption] are filled before [balance()] runs. *)
Record row := mk_row {
  Wind : Q; Heat : Q; Consumption : Q;
  eStore : Q; dStore : Q; dPower : Q;
  Pout : Q; Import : Q; Export : Q; Residual : Q; Pnet : Q; Water : Q
}.

#[global] Instance row_inhabited : Inhabited row :=
  populate (mk_row 0 0 0 0 0 0 0 0 0 0 0 0).

Record config := mk_config {
  wlim_high : Q; wlim_low : Q; impl : Q; expl : Q;
  dStore_InCap : Q; dStore_OutCap : Q; rtp_eff : Q;
  elyscap : Q; flexmax : Q; H2drain : Q
}.

Record state := mk_state { df : list row; H2high : Q; H2low : Q }.

(** [d_def_store] is [def_store] as lines 134 and 145 leave it, before the
    division of line 156. *)
Record dispatch_t := mk_dispatch {
  d_water : Q; d_imp : Q; d_exp : Q; d_eload : Q; d_flex : Q; d_def_store : Q
}.

Definition init_row (r : row) : row :=
  mk_row (Wind r) (Heat r) (Consumption r)
    0 0 0 (Consumption r) 0 0 0 (Consumption r) (Water r).

(** Lines 114-145 of the loop body. *)
Definition dispatch (c : config) (must_run load : Q) : dispatch_t :=
  let water :=
    if must_run - load >=? 0 then wlim_low c
    else if must_run - load <=? - wlim_high c then wlim_high c
    else Qmax (load - must_run) (wlim_low c) in
  let power_diff := must_run + water - load in
  if power_diff >=? 0
  then
    let def_store := Qmin power_diff (dStore_InCap c) in
    let power_diff := power_diff - def_store in
    let eload := Qmin power_diff (elyscap c) in
    let power_diff := power_diff - eload in
    let exp := Qmin power_diff (expl c) in
    mk_dispatch water 0 exp eload 0 def_store
  else
    let flex := Qmin (- power_diff) (flexmax c) in
    let power_diff := power_diff + flex in
    let imp := Qmin (- power_diff) (impl c) in
    let power_diff := power_diff + imp in
    let def_store := - Qmin (- power_diff) (dStore_OutCap c) in
    mk_dispatch water imp 0 0 flex def_store.

(** Lines 155-156: [if def_store < 0: def_store /= rtp_eff].  Python raises
    on a zero [rtp_eff]; the results on this variant assume it is not. *)
Definition store_flow (c : config) (def_store : Q) : Q :=
  if def_store <? 0 then def_store / rtp_eff c else def_store.

(** Lines 148-158: the cells written for row [i]; [p] is row [i-1]. *)
Definition write_row (c : config) (r p : row) (d : dispatch_t) : row :=
  let must_run := Wind r + Heat r in
  let def_store := store_flow c (d_def_store d) in
  mk_row (Wind r) (Heat r) (Consumption r + (d_eload d - d_flex d))
    (eStore p + d_eload d + (flexmax c - d_flex d) - H2drain c)
    (dStore p + def_store)
    def_store
    (must_run + d_water d + d_imp d - d_exp d - d_def_store d)
    (d_imp d) (d_exp d) (Residual r)
    (must_run + d_water d + d_imp d)
    (d_water d).

Definition balance_body (c : config) (i : nat) (s : state) : state :=
  let must_run := Wind (df s !!! i) + Heat (df s !!! i) in
  let load := Consumption (df s !!! i) in
  let d := dispatch c must_run load in
  mk_state
    (<[i := write_row c (df s !!! i) (df s !!! (i - 1)%nat) d]> (df s))
    (H2high s + d_eload d)
    (H2low s + (flexmax c - d_flex d)).

Definition balance (c : config) (s : state) : state :=
  let s0 := mk_state (<[0%nat := init_row (df s !!! 0%nat)]> (df s)) (H2high s) (H2low s) in
  for_range 1 (length (df s0)) (balance_body c) s0.

(** The constants of the script. *)
Definition script_config : config :=
  mk_config 13 2 2.6 6 0.73 6 0.4 9.35 9.35 (85 / 8.76).

End SvK_EF_wind.

(** ** Quantities the results are stated with *)

(** [ema_old] on entry to the iteration that makes draw number [k]. *)
Fixpoint ema_at (mt : Z -> nat -> Q) (k : nat) : Q :=
  match k with
  | O => imp_level
  | S j => alfa * (mt 5%Z j * imp_level * 2) + (1 - alfa) * ema_at mt j
  end.

(** The loop body of the two reservoir variants, over their [dispatch]. *)
Definition hbody (disp : hconfig -> Q -> Q -> Q -> Q -> Q -> Q -> hdispatch)
    (c : hconfig) (mt : Z -> nat -> Q) (i : nat) (s : hloop) : hloop :=
  let df := l_df s in
  let ostore := Store (df !!! (i - 1)%nat) in
  let d := disp c (Wind (df !!! i)) (Tout (df !!! i)) (Nuclear (df !!! i))
             ostore (l_ema s) (mt (rng_seed (l_gen s)) (rng_pos (l_gen s))) in
  mk_hloop (<[i := hwrite_row (df !!! i) ostore d]> df)
    (mk_rng (rng_seed (l_gen s)) (S (rng_pos (l_gen s)))) (d_ema d).

(** The decision of hour [i >= 1], from row [i] of the frame [df] handed to
    [balance()] and the level [ostore] left by the hour before. *)
Definition hour (disp : hconfig -> Q -> Q -> Q -> Q -> Q -> Q -> hdispatch)
    (c : hconfig) (mt : Z -> nat -> Q) (df : list hrow) (i : nat) (ostore : Q) : hdispatch :=
  disp c (Wind (df !!! i)) (Tout (df !!! i)) (Nuclear (df !!! i))
    ostore (ema_at mt (i - 1)) (mt 5%Z (i - 1)%nat).

(** The loop state on entry to iteration [k], [d0] being the frame on entry
    to the loop: the rows [1 .. k-1] are written, the others untouched. *)
Definition hloop_inv (disp : hconfig -> Q -> Q -> Q -> Q -> Q -> Q -> hdispatch)
    (c : hconfig) (mt : Z -> nat -> Q) (d0 : list hrow) (k : nat) (s : hloop) : Prop :=
  length (l_df s) = length d0 /\
  l_gen s = mk_rng 5 (k - 1) /\
  l_ema s = ema_at mt (k - 1) /\
  (forall j, (j = 0 \/ k <= j)%nat -> l_df s !!! j = d0 !!! j) /\
  (forall j, (1 <= j < k)%nat ->
     l_df s !!! j =
     hwrite_row (d0 !!! j) (Store (l_df s !!! (j - 1)%nat))
       (hour disp c mt d0 j (Store (l_df s !!! (j - 1)%nat)))).

(** Two frames with the same exogenous columns. *)
Definition same_inputs (r1 r2 : hrow) : Prop :=
  Wind r1 = Wind r2 /\ Tout r1 = Tout r2 /\ Nuclear r1 = Nuclear r2 /\ Inflow r1 = Inflow r2.

(** Capacities are not negative and hydro can run at its minimum. *)
Definition hconfig_ok (c : hconfig) : Prop :=
  2 <= wlim c /\ 0 <= impl c /\ 0 <= expl c.

(** The frame [balance()] returns, row by row. *)
Definition hbalance_rows (disp : hconfig -> Q -> Q -> Q -> Q -> Q -> Q -> hdispatch)
    (c : hconfig) (mt : Z -> nat -> Q) (df out : list hrow) : Prop :=
  length out = length df /\
  ((0 < length df)%nat -> out !!! 0%nat = hinit_row c (df !!! 0%nat)) /\
  forall i, (1 <= i < length df)%nat ->
    out !!! i =
    hwrite_row (df !!! i) (Store (out !!! (i - 1)%nat))
      (hour disp c mt df i (Store (out !!! (i - 1)%nat))).

(** ** Sample inputs and row-by-row descriptions of the finished frames *)

(** A stream that always draws 1/2, and a four-hour frame of the reservoir
    variants: a surplus hour, a deficit beyond the hydro limit, and a deficit
    within it. *)
Definition half_stream : Z -> nat -> Q := fun _ _ => 0.5.

Definition hframe4 : list hrow :=
  [ mk_hrow 10 20 7 3 0 0 0 0 0 0 0 0 0;
    mk_hrow 30 20 7 3 0 0 0 0 0 0 0 0 0;
    mk_hrow 1 40 7 3 0 0 0 0 0 0 0 0 0;
    mk_hrow 10 22 7 3 0 0 0 0 0 0 0 0 0 ].

Definition hstate4 : hstate := mk_hstate hframe4 (mk_rng 0 0).

(** The decision of hour [i >= 1] of [SvK_EF_nuclear.py]. *)
Definition nuc_hour (c : SvK_EF_nuclear.config) (df : list SvK_EF_nuclear.row) (i : nat)
    : SvK_EF_nuclear.dispatch_t :=
  SvK_EF_nuclear.dispatch c (SvK_EF_nuclear.Wind (df !!! i))
    (SvK_EF_nuclear.Consumption (df !!! i)) (SvK_EF_nuclear.Heat (df !!! i)).

Definition nuc_inv (c : SvK_EF_nuclear.config) (d0 : list SvK_EF_nuclear.row)
    (k : nat) (s : SvK_EF_nuclear.state) : Prop :=
  length (SvK_EF_nuclear.df s) = length d0 /\
  (forall j, (j = 0 \/ k <= j)%nat -> SvK_EF_nuclear.df s !!! j = d0 !!! j) /\
  (forall j, (1 <= j < k)%nat ->
     SvK_EF_nuclear.df s !!! j =
     SvK_EF_nuclear.write_row c (d0 !!! j)
       (SvK_EF_nuclear.eStore (SvK_EF_nuclear.df s !!! (j - 1)%nat)) (nuc_hour c d0 j)).

Definition nuc_rows (c : SvK_EF_nuclear.config) (df out : list SvK_EF_nuclear.row) : Prop :=
  length out = length df /\
  ((0 < length df)%nat -> out !!! 0%nat = SvK_EF_nuclear.init_row c (df !!! 0%nat)) /\
  forall i, (1 <= i < length df)%nat ->
    out !!! i =
    SvK_EF_nuclear.write_row c (df !!! i)
      (SvK_EF_nuclear.eStore (out !!! (i - 1)%nat)) (nuc_hour c df i).

(** The decision of hour [i >= 1] of [SvK_EF_wind.py]. *)
Definition dst_hour (c : SvK_EF_wind.config) (df : list SvK_EF_wind.row) (i : nat)
    : SvK_EF_wind.dispatch_t :=
  SvK_EF_wind.dispatch c
    (SvK_EF_wind.Wind (df !!! i) + SvK_EF_wind.Heat (df !!! i))
    (SvK_EF_wind.Consumption (df !!! i)).

Definition dst_inv (c : SvK_EF_wind.config) (d0 : list SvK_EF_wind.row)
    (k : nat) (s : SvK_EF_wind.state) : Prop :=
  length (SvK_EF_wind.df s) = length d0 /\
  (forall j, (j = 0 \/ k <= j)%nat -> SvK_EF_wind.df s !!! j = d0 !!! j) /\
  (forall j, (1 <= j < k)%nat ->
     SvK_EF_wind.df s !!! j =
     SvK_EF_wind.write_row c (d0 !!! j)
       (SvK_EF_wind.df s !!! (j - 1)%nat) (dst_hour c d0 j)).

Definition dst_rows (c : SvK_EF_wind.config) (df out : list SvK_EF_wind.row) : Prop :=
  length out = length df /\
  ((0 < length df)%nat -> out !!! 0%nat = SvK_EF_wind.init_row (df !!! 0%nat)) /\
  forall i, (1 <= i < length df)%nat ->
    out !!! i =
    SvK_EF_wind.write_row c (df !!! i) (out !!! (i - 1)%nat) (dst_hour c df i).

(** Frames of the two hydrogen variants: row 0, a deficit beyond the hydro
    limit, and a surplus beyond the export limit. *)
Definition nframe3 : list SvK_EF_nuclear.row :=
  [ SvK_EF_nuclear.mk_row 5 30 20 0 0 0 0 0 0 0;
    SvK_EF_nuclear.mk_row 5 40 20 0 0 0 0 0 0 0;
    SvK_EF_nuclear.mk_row 30 30 20 0 0 0 0 0 0 0 ].

Definition nstate3 : SvK_EF_nuclear.state := SvK_EF_nuclear.mk_state nframe3 0 0.

Definition wframe3 : list SvK_EF_wind.row :=
  [ SvK_EF_wind.mk_row 5 1 30 0 0 0 0 0 0 0 0 0;
    SvK_EF_wind.mk_row 5 1 40 0 0 0 0 0 0 0 0 0;
    SvK_EF_wind.mk_row 50 1 30 0 0 0 0 0 0 0 0 0 ].

Definition wstate3 : SvK_EF_wind.state := SvK_EF_wind.mk_state wframe3 0 0.

(** What an hour adds to the hydrogen store, by the sign of its residual. *)
Definition spb_gain (res : Q) : Q :=
  if res >=? 0 then 0.02 * res else 0.05 * res.

Definition se3_gain (elyscap res : Q) : Q :=
  if res >=? 0 then 0.02 * Qmin res elyscap else 0.05 * res.

(** The cells the hydrogen loop writes for a row [r], [p] being the row of
    the hour before. *)
Definition h2_row (gain : Q -> Q) (r p : hrow) : hrow :=
  SwedenPowerBalance.set_h2 r (Hydrogen p + gain (Residual r)) (eStore p + Residual r).

Definition h2_inv (gain : Q -> Q) (d0 : list hrow) (k : nat) (df : list hrow) : Prop :=
  length df = length d0 /\
  (forall j, (j = 0 \/ k <= j)%nat -> df !!! j = d0 !!! j) /\
  (forall j, (1 <= j < k)%nat -> df !!! j = h2_row gain (d0 !!! j) (df !!! (j - 1)%nat)).

(** The frame after the hydrogen loop, row by row, [df] being the frame
    [balance()] returned. *)
Definition h2_rows (gain : Q -> Q) (df out : list hrow) : Prop :=
  length out = length df /\
  ((0 < length df)%nat ->
   out !!! 0%nat
   = SwedenPowerBalance.set_h2 (SwedenPowerBalance.set_residual (df !!! 0%nat)) 0 0) /\
  forall i, (1 <= i < length df)%nat ->
    out !!! i
    = h2_row gain (SwedenPowerBalance.set_residual (df !!! i)) (out !!! (i - 1)%nat).

(** Two frames of the same length with the same exogenous columns. *)
Definition same_input_frames (df1 df2 : list hrow) : Prop :=
  length df1 = length df2 /\
  forall i, (i < length df1)%nat -> same_inputs (df1 !!! i) (df2 !!! i).

(** A row of the [balance()] frame with the cells of the main script set:
    [Residual] from the row, [Hydrogen] and [eStore] as given. *)
Definition hkey (r : hrow) (hydrogen estore : Q) : hrow :=
  SwedenPowerBalance.set_h2 (SwedenPowerBalance.set_residual r) hydrogen estore.

(** Two starts of the same simulation: the same exogenous columns as
    [hframe4], other cells and another generator state. *)
Definition hstate4_dirty : hstate :=
  mk_hstate
    [ mk_hrow 10 20 7 3 1 2 3 4 5 6 7 8 9;
      mk_hrow 30 20 7 3 9 8 7 6 5 4 3 2 1;
      mk_hrow 1 40 7 3 (-1) (-2) (-3) (-4) (-5) (-6) (-7) (-8) (-9);
      mk_hrow 10 22 7 3 100 100 100 100 100 100 100 100 100 ]
    (mk_rng 42 7).

(** Hydro maximum 6 and no import or export; the hydro minimum 2 and the
    starting level 20000 are literals of [balance()]. *)
Definition config6 : hconfig := mk_hconfig 6 0 0 0.

(** The three hours, and the same hours behind an initialisation row. *)
Definition hours3 : list hrow :=
  [ mk_hrow 5 8 5 3 0 0 0 0 0 0 0 0 0;
    mk_hrow 5 12 5 3 0 0 0 0 0 0 0 0 0;
    mk_hrow 5 6 5 3 0 0 0 0 0 0 0 0 0 ].

Definition frame6 : list hrow := mk_hrow 5 10 5 3 0 0 0 0 0 0 0 0 0 :: hours3.

(** The configuration [c] with another round-trip efficiency. *)
Definition set_rtp_eff (e : Q) (c : SvK_EF_wind.config) : SvK_EF_wind.config :=
  SvK_EF_wind.mk_config
    (SvK_EF_wind.wlim_high c) (SvK_EF_wind.wlim_low c)
    (SvK_EF_wind.impl c) (SvK_EF_wind.expl c)
    (SvK_EF_wind.dStore_InCap c) (SvK_EF_wind.dStore_OutCap c) e
    (SvK_EF_wind.elyscap c) (SvK_EF_wind.flexmax c) (SvK_EF_wind.H2drain c).

(** ** Quantities of the further results *)

(** The sum of [f i] over [range(lo, hi)]. *)
Definition Qsum (f : nat -> Q) (lo hi : nat) : Q :=
  foldl (fun acc i => acc + f i) 0 (seq lo (hi - lo)).


(** The number of hours [n] as a rational. *)
Definition Qnat (n : nat) : Q := inject_Z (Z.of_nat n).

(** [SvK_EF_nuclear.py], line 159: [df['Residual'] = df['Pout'] -
    df['Consumption']], on the frame [balance()] has filled. *)
Definition nuc_set_residual (r : SvK_EF_nuclear.row) : SvK_EF_nuclear.row :=
  SvK_EF_nuclear.mk_row
    (SvK_EF_nuclear.Wind r) (SvK_EF_nuclear.Consumption r) (SvK_EF_nuclear.Heat r)
    (SvK_EF_nuclear.eStore r) (SvK_EF_nuclear.Pout r) (SvK_EF_nuclear.Water r)
    (SvK_EF_nuclear.Import r) (SvK_EF_nuclear.Export r)
    (SvK_EF_nuclear.Pout r - SvK_EF_nuclear.Consumption r)
    (SvK_EF_nuclear.Pnet r).

Definition nuc_simulate (c : SvK_EF_nuclear.config) (s : SvK_EF_nuclear.state)
    : list SvK_EF_nuclear.row :=
  nuc_set_residual <$> SvK_EF_nuclear.df (SvK_EF_nuclear.balance c s).

(** [SvK_EF_wind.py], line 210, likewise. *)
Definition dst_set_residual (r : SvK_EF_wind.row) : SvK_EF_wind.row :=
  SvK_EF_wind.mk_row
    (SvK_EF_wind.Wind r) (SvK_EF_wind.Heat r) (SvK_EF_wind.Consumption r)
    (SvK_EF_wind.eStore r) (SvK_EF_wind.dStore r) (SvK_EF_wind.dPower r)
    (SvK_EF_wind.Pout r) (SvK_EF_wind.Import r) (SvK_EF_wind.Export r)
    (SvK_EF_wind.Pout r - SvK_EF_wind.Consumption r)
    (SvK_EF_wind.Pnet r) (SvK_EF_wind.Water r).

Definition dst_simulate (c : SvK_EF_wind.config) (s : SvK_EF_wind.state)
    : list SvK_EF_wind.row :=
  dst_set_residual <$> SvK_EF_wind.df (SvK_EF_wind.balance c s).

(** Capacities of the hydrogen variants that are not negative, with a hydro
    range that is not empty. *)
Definition nuc_config_ok (c : SvK_EF_nuclear.config) : Prop :=
  2 <= SvK_EF_nuclear.wlim c /\ 0 <= SvK_EF_nuclear.impl c /\
  0 <= SvK_EF_nuclear.expl c /\ 0 <= SvK_EF_nuclear.elyscap c /\
  0 <= SvK_EF_nuclear.flexmax c.

Definition dst_config_ok (c : SvK_EF_wind.config) : Prop :=
  0 <= SvK_EF_wind.wlim_low c /\ SvK_EF_wind.wlim_low c <= SvK_EF_wind.wlim_high c /\
  0 <= SvK_EF_wind.impl c /\ 0 <= SvK_EF_wind.expl c /\
  0 <= SvK_EF_wind.dStore_InCap c /\ 0 <= SvK_EF_wind.dStore_OutCap c /\
  0 <= SvK_EF_wind.elyscap c /\ 0 <= SvK_EF_wind.flexmax c.

(** What the dispatch of one hour leaves unbalanced: [Pout] minus the
    consumption as adjusted by the flexible load. *)
Definition nuc_residual (w l n : Q) (d : SvK_EF_nuclear.dispatch_t) : Q :=
  w + SvK_EF_nuclear.d_water d + n + SvK_EF_nuclear.d_imp d - SvK_EF_nuclear.d_exp d
  - (l + (SvK_EF_nuclear.d_eload d - SvK_EF_nuclear.d_flex d)).

Definition dst_residual (m l : Q) (d : SvK_EF_wind.dispatch_t) : Q :=
  m + SvK_EF_wind.d_water d + SvK_EF_wind.d_imp d - SvK_EF_wind.d_exp d
  - SvK_EF_wind.d_def_store d
  - (l + (SvK_EF_wind.d_eload d - SvK_EF_wind.d_flex d)).

(** ** The columns built before [balance()]

    The frame of the scripts has a [Date] column besides the cells of
    [hrow]; it is carried as the list [dates], parallel to the frame, of the
    values [x.value] of its timestamps (nanoseconds since the epoch), so
    that [x.timestamp()] is [x.value / 1e9].  [math.sin], [math.exp] and
    [pow] are library functions on floats: [py_sin], [py_exp] and [py_pow]
    stand for them. *)

#[global] Instance Q_inhabited : Inhabited Q := populate 0.

(** Python's [x % m] on floats, for a positive [m]. *)
Definition py_mod (x m : Q) : Q := x - m * inject_Z (Qfloor (x / m)).

Definition timestamp (value : Q) : Q := value / 1000000000.

(** [inflow()], lines 158-159: the hour of the year, from 1 May. *)
Definition hour_of_year (value : Q) : Q :=
  py_mod ((timestamp value / 3600 - 438288) + 5880) 8784.

(** [inflow()], line 160: the inflow formula. *)
Definition inflow_formula (py_exp : Q -> Q) (py_pow : Q -> Q -> Q) (x : Q) : Q :=
  0.00012 * x ^ 2 * py_exp (- py_pow (x * 0.002) 0.9) + 2.8.

Definition set_Wind (r : hrow) (v : Q) : hrow :=
  mk_hrow v (Tout r) (Nuclear r) (Inflow r)
    (Store r) (Pout r) (Waout r) (Import r) (Export r) (Pnet r)
    (Residual r) (Hydrogen r) (eStore r).

Definition set_Tout (r : hrow) (v : Q) : hrow :=
  mk_hrow (Wind r) v (Nuclear r) (Inflow r)
    (Store r) (Pout r) (Waout r) (Import r) (Export r) (Pnet r)
    (Residual r) (Hydrogen r) (eStore r).

Definition set_Nuclear (r : hrow) (v : Q) : hrow :=
  mk_hrow (Wind r) (Tout r) v (Inflow r)
    (Store r) (Pout r) (Waout r) (Import r) (Export r) (Pnet r)
    (Residual r) (Hydrogen r) (eStore r).

Definition set_Inflow (r : hrow) (v : Q) : hrow :=
  mk_hrow (Wind r) (Tout r) (Nuclear r) v
    (Store r) (Pout r) (Waout r) (Import r) (Export r) (Pnet r)
    (Residual r) (Hydrogen r) (eStore r).

(** [inflow()]: the [Inflow] column from the [Date] column. *)
Definition inflow (py_exp : Q -> Q) (py_pow : Q -> Q -> Q)
    (dates : list Q) (df : list hrow) : list hrow :=
  zip_with (fun value r => set_Inflow r (inflow_formula py_exp py_pow (hour_of_year value)))
    dates df.

(** [sinus(column, mean, amp, phase)]: the sine of the date, times [amp],
    plus [mean]; [set] writes the cell of [column]. *)
Definition sinus_value (py_sin : Q -> Q) (mean amp phase value : Q) : Q :=
  py_sin (value / 5000000000000000 + phase) * amp + mean.

Definition sinus (py_sin : Q -> Q) (set : hrow -> Q -> hrow) (mean amp phase : Q)
    (dates : list Q) (df : list hrow) : list hrow :=
  zip_with (fun value r => set r (sinus_value py_sin mean amp phase value)) dates df.

(** [scalewind()]: [df['Wind'] *= scale]. *)
Definition scalewind (scale : Q) (df : list hrow) : list hrow :=
  (fun r => set_Wind r (Wind r * scale)) <$> df.

(** The main script of [SwedenPowerBalance.py] from [sinus('Tout', ...)] to
    the end of the hydrogen loop, with its constants. *)
Definition spb_scale : Q := 6.
Definition spb_conp : Q := 7.2.
Definition spb_load : Q := 8.4 + spb_conp + (spb_scale - 1) * 3.14 + constexp SwedenPowerBalance.config.

Definition spb_prepare (py_sin py_exp : Q -> Q) (py_pow : Q -> Q -> Q)
    (dates : list Q) (df : list hrow) : list hrow :=
  let df := sinus py_sin set_Tout spb_load 4 (0 * 3.14) dates df in
  let df := sinus py_sin set_Nuclear spb_conp 2 (0 * 3.14) dates df in
  let df := inflow py_exp py_pow dates df in
  scalewind spb_scale df.

Definition spb_main (py_sin py_exp : Q -> Q) (py_pow : Q -> Q -> Q) (mt : Z -> nat -> Q)
    (dates : list Q) (st : hstate) : list hrow :=
  SwedenPowerBalance.simulate SwedenPowerBalance.config mt
    (mk_hstate (spb_prepare py_sin py_exp py_pow dates (h_df st)) (h_gen st)).

(** The same part of [SE300wind.py]: the constants and the calls are the
    same, the dispatch and the hydrogen loop are its own. *)
Definition se3_main (py_sin py_exp : Q -> Q) (py_pow : Q -> Q -> Q) (mt : Z -> nat -> Q)
    (dates : list Q) (st : hstate) : list hrow :=
  SE300wind.simulate SE300wind.config mt
    (mk_hstate (spb_prepare py_sin py_exp py_pow dates (h_df st)) (h_gen st)).

(** Stand-ins for the library functions, and the dates of four hours from
    1 May 2020, 00:00. *)
Definition sin_zero : Q -> Q := fun _ => 0.
Definition exp_one : Q -> Q := fun _ => 1.
Definition pow_zero : Q -> Q -> Q := fun _ _ => 0.

Definition dates4 : list Q :=
  [ 1588291200 * 1000000000; 1588294800 * 1000000000;
    1588298400 * 1000000000; 1588302000 * 1000000000 ].

(** [estore()] of [SwedenPowerBalance.py], lines 167-170, before it plots
    and exits: the column [Estore] (not a cell of [hrow]) is the list [col],
    and [wind] is the [Wind] column. *)
Definition estore_body (mean_power : Q) (wind : list Q) (i : nat) (col : list Q) : list Q :=
  <[i := col !!! (i - 1)%nat + wind !!! i - mean_power]> col.

Definition estore (mean_power : Q) (wind col : list Q) : list Q :=
  let col := <[0%nat := 0]> col in
  for_range 1 (length wind) (estore_body mean_power wind) col.

(** Lines 197-198: [total_power = df['Wind'].sum()] and
    [mean_power = total_power / len(df)]. *)
Definition total_power (wind : list Q) : Q :=
  Qsum (fun i => wind !!! i) 0 (length wind).

Definition mean_power (wind : list Q) : Q := total_power wind / Qnat (length wind).

(** * Results *)

(** ** Tests, [min] and [max] *)

Lemma Qleb_true x y : (x <=? y) = true -> x <= y.
Proof. unfold Qleb. apply Qle_bool_iff. Qed.

Lemma Qleb_false x y : (x <=? y) = false -> y < x.
Proof.
  unfold Qleb. intros E. apply Qnot_le_lt. intros H.
  apply Qle_bool_iff in H. congruence.
Qed.

Lemma Qgeb_true x y : (x >=? y) = true -> y <= x.
Proof. apply Qleb_true. Qed.

Lemma Qgeb_false x y : (x >=? y) = false -> x < y.
Proof. apply Qleb_false. Qed.

Lemma Qltb_true x y : (x <? y) = true -> x < y.
Proof.
  unfold Qltb. intros E. apply negb_true_iff in E. now apply Qleb_false.
Qed.

Lemma Qltb_false x y : (x <? y) = false -> y <= x.
Proof.
  unfold Qltb. intros E. apply negb_false_iff in E. now apply Qleb_true.
Qed.

(** Case analysis on one test of the goal. *)
Ltac qtest :=
  match goal with
  | |- context [Qleb ?a ?b] =>
      let E := fresh "E" in
      destruct (Qleb a b) eqn:E; [apply Qleb_true in E | apply Qleb_false in E]
  | |- context [Qgeb ?a ?b] =>
      let E := fresh "E" in
      destruct (Qgeb a b) eqn:E; [apply Qgeb_true in E | apply Qgeb_false in E]
  | |- context [Qltb ?a ?b] =>
      let E := fresh "E" in
      destruct (Qltb a b) eqn:E; [apply Qltb_true in E | apply Qltb_false in E]
  end.

(** Replace one [Qmin]/[Qmax] by a variable with its defining cases. *)
Ltac qminmax :=
  match goal with
  | |- context [Qmin ?a ?b] =>
      let m := fresh "m" in let H := fresh "Hm" in let L := fresh "Hl" in
      destruct (Q.min_spec a b) as [[L H] | [L H]];
      set (m := Qmin a b) in *; clearbody m
  | |- context [Qmax ?a ?b] =>
      let m := fresh "m" in let H := fresh "Hm" in let L := fresh "Hl" in
      destruct (Q.max_spec a b) as [[L H] | [L H]];
      set (m := Qmax a b) in *; clearbody m
  | H0 : context [Qmin ?a ?b] |- _ =>
      let m := fresh "m" in let H := fresh "Hm" in let L := fresh "Hl" in
      destruct (Q.min_spec a b) as [[L H] | [L H]];
      set (m := Qmin a b) in *; clearbody m
  | H0 : context [Qmax ?a ?b] |- _ =>
      let m := fresh "m" in let H := fresh "Hm" in let L := fresh "Hl" in
      destruct (Q.max_spec a b) as [[L H] | [L H]];
      set (m := Qmax a b) in *; clearbody m
  end.

Ltac qsolve := repeat qtest; repeat qminmax; lra.

(** ** The loop *)

Lemma for_range_ind {S : Type} (P : nat -> S -> Prop) (body : nat -> S -> S)
    (lo hi : nat) (s : S) :
  (lo <= hi)%nat ->
  P lo s ->
  (forall i t, (lo <= i < hi)%nat -> P i t -> P (Datatypes.S i) (body i t)) ->
  P hi (for_range lo hi body s).
Proof.
  intros Hle H0 Hstep. unfold for_range.
  replace hi with (lo + (hi - lo))%nat at 1 by lia.
  assert (Hn : (lo + (hi - lo) <= hi)%nat) by lia.
  revert Hn. generalize (hi - lo)%nat as n. intros n.
  induction n as [|n IH]; intros Hn.
  - simpl. now rewrite Nat.add_0_r.
  - rewrite seq_S, foldl_app. simpl.
    replace (lo + Datatypes.S n)%nat with (Datatypes.S (lo + n)) by lia.
    apply Hstep; [lia|]. apply IH. lia.
Qed.

Lemma for_range_empty {S : Type} (body : nat -> S -> S) (lo hi : nat) (s : S) :
  (hi <= lo)%nat -> for_range lo hi body s = s.
Proof.
  intros H. unfold for_range. now replace (hi - lo)%nat with 0%nat by lia.
Qed.

(** ** The reservoir variants: what [balance()] leaves in the frame *)

Lemma spb_body_eq c mt i s :
  SwedenPowerBalance.balance_body c mt i s = hbody SwedenPowerBalance.dispatch c mt i s.
Proof. reflexivity. Qed.

Lemma se3_body_eq c mt i s :
  SE300wind.balance_body c mt i s = hbody SE300wind.dispatch c mt i s.
Proof. reflexivity. Qed.

Section ReservoirLoop.

Variable disp : hconfig -> Q -> Q -> Q -> Q -> Q -> Q -> hdispatch.
Hypothesis disp_ema : forall c w l n o e u,
  d_ema (disp c w l n o e u) = alfa * (u * imp_level * 2) + (1 - alfa) * e.
Variable c : hconfig.
Variable mt : Z -> nat -> Q.

Lemma hloop_inv_step d0 k s :
  (1 <= k < length d0)%nat ->
  hloop_inv disp c mt d0 k s -> hloop_inv disp c mt d0 (S k) (hbody disp c mt k s).
Proof.
  intros Hk (Hlen & Hg & He & Hfr & Hdone).
  unfold hloop_inv, hbody. cbn [l_df l_gen l_ema].
  rewrite Hg, He. cbn [rng_seed rng_pos].
  repeat split.
  - now rewrite length_insert.
  - f_equal. lia.
  - rewrite disp_ema. replace (S k - 1)%nat with (S (k - 1)) by lia.
    cbn [ema_at]. reflexivity.
  - intros j Hj. rewrite list_lookup_total_insert_ne by lia.
    apply Hfr. lia.
  - intros j Hj.
    destruct (decide (j = k)) as [->|Hne].
    + rewrite list_lookup_total_insert_eq by lia.
      rewrite list_lookup_total_insert_ne by lia.
      rewrite (Hfr k) by lia. reflexivity.
    + rewrite !list_lookup_total_insert_ne by lia.
      apply Hdone. lia.
Qed.

Lemma hloop_spec d0 g :
  let out := l_df (for_range 1 (length d0) (hbody disp c mt)
                     (mk_hloop d0 (random_seed 5 g) imp_level)) in
  length out = length d0 /\
  out !!! 0%nat = d0 !!! 0%nat /\
  forall i, (1 <= i < length d0)%nat ->
    out !!! i =
    hwrite_row (d0 !!! i) (Store (out !!! (i - 1)%nat))
      (hour disp c mt d0 i (Store (out !!! (i - 1)%nat))).
Proof.
  destruct (decide (length d0 <= 1)%nat) as [Hs|Hl].
  - rewrite for_range_empty by lia. cbn. repeat split; intros; lia.
  - cbv zeta.
    pose proof (for_range_ind (hloop_inv disp c mt d0) (hbody disp c mt) 1 (length d0)
                  (mk_hloop d0 (random_seed 5 g) imp_level)) as H.
    destruct H as (Hlen & _ & _ & Hfr & Hdone).
    + lia.
    + unfold hloop_inv. cbn. repeat split; intros; lia || reflexivity.
    + intros i t Hi. now apply hloop_inv_step.
    + repeat split; auto.
Qed.

End ReservoirLoop.

Lemma spb_dispatch_ema c w l n o e u :
  d_ema (SwedenPowerBalance.dispatch c w l n o e u)
  = alfa * (u * imp_level * 2) + (1 - alfa) * e.
Proof. reflexivity. Qed.

Lemma se3_dispatch_ema c w l n o e u :
  d_ema (SE300wind.dispatch c w l n o e u)
  = alfa * (u * imp_level * 2) + (1 - alfa) * e.
Proof. reflexivity. Qed.

Lemma hbalance_rows_gen disp c mt st :
  (forall c w l n o e u,
     d_ema (disp c w l n o e u) = alfa * (u * imp_level * 2) + (1 - alfa) * e) ->
  let d0 := <[0%nat := hinit_row c (h_df st !!! 0%nat)]> (h_df st) in
  hbalance_rows disp c mt (h_df st)
    (l_df (for_range 1 (length d0) (hbody disp c mt)
             (mk_hloop d0 (random_seed 5 (h_gen st)) imp_level))).
Proof.
  intros Hema d0.
  destruct (hloop_spec disp Hema c mt d0 (h_gen st)) as (Hlen & H0 & Hi).
  assert (Hd0 : length d0 = length (h_df st)) by apply length_insert.
  split; [congruence|]. split.
  - intros Hpos. rewrite H0. unfold d0.
    now apply list_lookup_total_insert_eq.
  - intros i Hr. rewrite Hi by lia. unfold hour, d0.
    now rewrite !list_lookup_total_insert_ne by lia.
Qed.

Lemma spb_balance_rows c mt st :
  hbalance_rows SwedenPowerBalance.dispatch c mt (h_df st)
    (h_df (SwedenPowerBalance.balance c mt st)).
Proof. apply (hbalance_rows_gen SwedenPowerBalance.dispatch), spb_dispatch_ema. Qed.

Lemma se3_balance_rows c mt st :
  hbalance_rows SE300wind.dispatch c mt (h_df st)
    (h_df (SE300wind.balance c mt st)).
Proof. apply (hbalance_rows_gen SE300wind.dispatch), se3_dispatch_ema. Qed.

(** ** One hour of the reservoir variants *)

Lemma spb_hour_bounds c w l n o e u :
  hconfig_ok c -> 2 <= o ->
  let d := SwedenPowerBalance.dispatch c w l n o e u in
  0 <= d_water d /\ d_water d <= wlim c /\ d_water d <= o /\
  0 <= d_imp d /\ d_imp d <= impl c /\ 0 <= d_exp d /\ d_exp d <= expl c.
Proof.
  intros (Hw & Hi & He) Ho. cbv zeta.
  unfold SwedenPowerBalance.dispatch. cbn [d_water d_imp d_exp].
  repeat qtest; repeat qminmax; repeat split; lra.
Qed.

Lemma se3_hour_bounds c w l n o e u :
  hconfig_ok c -> 2 <= o ->
  let d := SE300wind.dispatch c w l n o e u in
  2 <= d_water d /\ d_water d <= wlim c /\ d_water d <= o /\
  0 <= d_imp d /\ d_imp d <= impl c /\ 0 <= d_exp d /\ d_exp d <= expl c.
Proof.
  intros (Hw & Hi & He) Ho. cbv zeta.
  unfold SE300wind.dispatch. cbn [d_water d_imp d_exp].
  repeat qtest; repeat qminmax; repeat split; lra.
Qed.

(** ** The reservoir level along the frame *)

Section ReservoirRows.

Variable disp : hconfig -> Q -> Q -> Q -> Q -> Q -> Q -> hdispatch.
Variable c : hconfig.
Variable mt : Z -> nat -> Q.
Variables df out : list hrow.
Hypothesis Hrows : hbalance_rows disp c mt df out.

Lemma hrows_inputs i :
  (i < length df)%nat -> same_inputs (out !!! i) (df !!! i).
Proof.
  destruct Hrows as (_ & H0 & Hi). intros Hlt.
  destruct (decide (i = 0%nat)) as [->|Hne].
  - rewrite H0 by lia. now unfold same_inputs.
  - rewrite Hi by lia. now unfold same_inputs.
Qed.

Lemma hrows_store_step i :
  (1 <= i < length df)%nat ->
  Store (out !!! i)
  = Store (out !!! (i - 1)%nat) - Waout (out !!! i) + Inflow (out !!! i).
Proof.
  destruct Hrows as (_ & _ & Hi). intros Hr.
  rewrite (Hi i Hr). reflexivity.
Qed.

Hypothesis Hwater : forall w l n o e u,
  2 <= o -> d_water (disp c w l n o e u) <= o.
Hypothesis Hinflow : forall i, (i < length df)%nat -> 2 <= Inflow (df !!! i).

Lemma hrows_store_ge_2 i :
  (i < length df)%nat -> 2 <= Store (out !!! i).
Proof.
  destruct Hrows as (_ & H0 & Hi).
  induction i as [|i IH]; intros Hlt.
  - rewrite H0 by lia. cbn. lra.
  - rewrite Hi by lia. cbn [Store hwrite_row].
    replace (S i - 1)%nat with i by lia.
    specialize (IH ltac:(lia)).
    pose proof (Hinflow (S i) Hlt) as Hin.
    pose proof (Hwater (Wind (df !!! S i)) (Tout (df !!! S i)) (Nuclear (df !!! S i))
                  (Store (out !!! i)) (ema_at mt (S i - 1)) (mt 5%Z (S i - 1)%nat) IH) as Hw.
    unfold hour. lra.
Qed.

End ReservoirRows.

Lemma spb_water_le c w l n o e u :
  hconfig_ok c -> 2 <= o -> d_water (SwedenPowerBalance.dispatch c w l n o e u) <= o.
Proof.
  intros Hc Ho.
  pose proof (spb_hour_bounds c w l n o e u Hc Ho) as (_ & _ & H & _). exact H.
Qed.

Lemma se3_water_le c w l n o e u :
  hconfig_ok c -> 2 <= o -> d_water (SE300wind.dispatch c w l n o e u) <= o.
Proof.
  intros Hc Ho.
  pose proof (se3_hour_bounds c w l n o e u Hc Ho) as (_ & _ & H & _). exact H.
Qed.

Lemma hframe4_inflow i : (i < length hframe4)%nat -> 2.8 <= Inflow (hframe4 !!! i).
Proof.
  intros H. do 4 (destruct i as [|i]; [cbn; lra|]). cbn in H. lia.
Qed.

Lemma script_config_ok : hconfig_ok SwedenPowerBalance.config /\ hconfig_ok SE300wind.config.
Proof. unfold hconfig_ok; cbn; repeat split; lra. Qed.

(** C2: in both reservoir variants the level written for hour [i >= 1] is
    the level of hour [i-1] minus the hydro power written for hour [i] plus
    the inflow of hour [i]; the hydro power written is the one left by the
    water-to-import exchange and the inflow is the exogenous one. *)
Theorem C2_store_update c mt st i :
  (1 <= i < length (h_df st))%nat ->
  let spb := h_df (SwedenPowerBalance.balance c mt st) in
  let se3 := h_df (SE300wind.balance c mt st) in
  (Store (spb !!! i)
   = Store (spb !!! (i - 1)%nat) - Waout (spb !!! i) + Inflow (spb !!! i) /\
   Waout (spb !!! i)
   = d_water (hour SwedenPowerBalance.dispatch c mt (h_df st) i (Store (spb !!! (i - 1)%nat))) /\
   Inflow (spb !!! i) = Inflow (h_df st !!! i)) /\
  (Store (se3 !!! i)
   = Store (se3 !!! (i - 1)%nat) - Waout (se3 !!! i) + Inflow (se3 !!! i) /\
   Waout (se3 !!! i)
   = d_water (hour SE300wind.dispatch c mt (h_df st) i (Store (se3 !!! (i - 1)%nat))) /\
   Inflow (se3 !!! i) = Inflow (h_df st !!! i)).
Proof.
  intros Hi spb se3.
  pose proof (spb_balance_rows c mt st) as Hs.
  pose proof (se3_balance_rows c mt st) as He.
  fold spb in Hs. fold se3 in He.
  split; (split; [|split]).
  - apply (hrows_store_step _ _ _ _ _ Hs i Hi).
  - destruct Hs as (_ & _ & H). now rewrite (H i Hi) at 1.
  - apply (hrows_inputs _ _ _ _ _ Hs i). lia.
  - apply (hrows_store_step _ _ _ _ _ He i Hi).
  - destruct He as (_ & _ & H). now rewrite (H i Hi) at 1.
  - apply (hrows_inputs _ _ _ _ _ He i). lia.
Qed.

Lemma C2_store_update_witness :
  Store (h_df (SwedenPowerBalance.balance SwedenPowerBalance.config half_stream hstate4) !!! 2%nat)
  = Store (h_df (SwedenPowerBalance.balance SwedenPowerBalance.config half_stream hstate4) !!! 1%nat)
    - Waout (h_df (SwedenPowerBalance.balance SwedenPowerBalance.config half_stream hstate4) !!! 2%nat)
    + Inflow (h_df (SwedenPowerBalance.balance SwedenPowerBalance.config half_stream hstate4) !!! 2%nat).
Proof.
  assert (H : (1 <= 2 < length (h_df hstate4))%nat) by (cbn; lia).
  exact (proj1 (proj1 (C2_store_update SwedenPowerBalance.config half_stream hstate4 2 H))).
Defined.

(** C8: with capacities that are not negative, the initial level 20000 and
    an inflow of at least 2.8 in every hour, the reservoir level of both
    variants is never negative. *)
Theorem C8_store_nonneg c mt st i :
  hconfig_ok c ->
  (forall j, (j < length (h_df st))%nat -> 2.8 <= Inflow (h_df st !!! j)) ->
  (i < length (h_df st))%nat ->
  0 <= Store (h_df (SwedenPowerBalance.balance c mt st) !!! i) /\
  0 <= Store (h_df (SE300wind.balance c mt st) !!! i).
Proof.
  intros Hc Hin Hi.
  assert (Hin2 : forall j, (j < length (h_df st))%nat -> 2 <= Inflow (h_df st !!! j)).
  { intros j Hj. specialize (Hin j Hj). lra. }
  split.
  - pose proof (hrows_store_ge_2 _ _ _ _ _ (spb_balance_rows c mt st)
                  (fun w l n o e u => spb_water_le c w l n o e u Hc) Hin2 i Hi). lra.
  - pose proof (hrows_store_ge_2 _ _ _ _ _ (se3_balance_rows c mt st)
                  (fun w l n o e u => se3_water_le c w l n o e u Hc) Hin2 i Hi). lra.
Qed.

Lemma C8_store_nonneg_witness :
  0 <= Store (h_df (SwedenPowerBalance.balance SwedenPowerBalance.config half_stream hstate4) !!! 3%nat) /\
  0 <= Store (h_df (SE300wind.balance SwedenPowerBalance.config half_stream hstate4) !!! 3%nat).
Proof.
  apply (C8_store_nonneg SwedenPowerBalance.config half_stream hstate4 3).
  - exact (proj1 script_config_ok).
  - exact hframe4_inflow.
  - cbn; lia.
Defined.

(** ** The hydrogen variants: what [balance()] leaves in the frame *)

Lemma nuc_inv_step c d0 k s :
  (1 <= k < length d0)%nat ->
  nuc_inv c d0 k s -> nuc_inv c d0 (S k) (SvK_EF_nuclear.balance_body c k s).
Proof.
  intros Hk (Hlen & Hfr & Hdone).
  unfold nuc_inv, SvK_EF_nuclear.balance_body. cbn [SvK_EF_nuclear.df].
  split; [|split].
  - now rewrite length_insert.
  - intros j Hj. rewrite list_lookup_total_insert_ne by lia. apply Hfr. lia.
  - intros j Hj. destruct (decide (j = k)) as [->|Hne].
    + rewrite list_lookup_total_insert_eq by lia.
      rewrite list_lookup_total_insert_ne by lia.
      unfold nuc_hour. rewrite (Hfr k) by lia. reflexivity.
    + rewrite !list_lookup_total_insert_ne by lia. apply Hdone. lia.
Qed.

Lemma nuc_balance_rows c s :
  nuc_rows c (SvK_EF_nuclear.df s) (SvK_EF_nuclear.df (SvK_EF_nuclear.balance c s)).
Proof.
  unfold SvK_EF_nuclear.balance. cbn [SvK_EF_nuclear.df].
  set (d0 := <[0%nat := SvK_EF_nuclear.init_row c (SvK_EF_nuclear.df s !!! 0%nat)]>
               (SvK_EF_nuclear.df s)).
  set (s0 := SvK_EF_nuclear.mk_state d0 _ _).
  assert (Hd0 : length d0 = length (SvK_EF_nuclear.df s)) by apply length_insert.
  assert (H : nuc_inv c d0 (Nat.max 1 (length d0))
                (for_range 1 (length d0) (SvK_EF_nuclear.balance_body c) s0)).
  { destruct (decide (length d0 <= 1)%nat) as [Hs|Hl].
    - rewrite for_range_empty by lia. unfold nuc_inv. cbn.
      split; [reflexivity|]. split; [reflexivity|]. intros; lia.
    - replace (Nat.max 1 (length d0)) with (length d0) by lia.
      apply (for_range_ind (nuc_inv c d0)); [lia| |].
      + unfold nuc_inv. cbn. split; [reflexivity|]. split; [reflexivity|]. intros; lia.
      + intros i t Hi. now apply nuc_inv_step. }
  destruct H as (Hlen & Hfr & Hdone).
  split; [congruence|]. split.
  - intros Hpos. rewrite Hfr by lia. unfold d0.
    now apply list_lookup_total_insert_eq.
  - intros i Hi. rewrite Hdone by lia. unfold nuc_hour, d0.
    now rewrite !list_lookup_total_insert_ne by lia.
Qed.

Lemma dst_inv_step c d0 k s :
  (1 <= k < length d0)%nat ->
  dst_inv c d0 k s -> dst_inv c d0 (S k) (SvK_EF_wind.balance_body c k s).
Proof.
  intros Hk (Hlen & Hfr & Hdone).
  unfold dst_inv, SvK_EF_wind.balance_body. cbn [SvK_EF_wind.df].
  split; [|split].
  - now rewrite length_insert.
  - intros j Hj. rewrite list_lookup_total_insert_ne by lia. apply Hfr. lia.
  - intros j Hj. destruct (decide (j = k)) as [->|Hne].
    + rewrite list_lookup_total_insert_eq by lia.
      rewrite list_lookup_total_insert_ne by lia.
      unfold dst_hour. rewrite (Hfr k) by lia. reflexivity.
    + rewrite !list_lookup_total_insert_ne by lia. apply Hdone. lia.
Qed.

Lemma dst_balance_rows c s :
  dst_rows c (SvK_EF_wind.df s) (SvK_EF_wind.df (SvK_EF_wind.balance c s)).
Proof.
  unfold SvK_EF_wind.balance. cbn [SvK_EF_wind.df].
  set (d0 := <[0%nat := SvK_EF_wind.init_row (SvK_EF_wind.df s !!! 0%nat)]>
               (SvK_EF_wind.df s)).
  set (s0 := SvK_EF_wind.mk_state d0 _ _).
  assert (Hd0 : length d0 = length (SvK_EF_wind.df s)) by apply length_insert.
  assert (H : dst_inv c d0 (Nat.max 1 (length d0))
                (for_range 1 (length d0) (SvK_EF_wind.balance_body c) s0)).
  { destruct (decide (length d0 <= 1)%nat) as [Hs|Hl].
    - rewrite for_range_empty by lia. unfold dst_inv. cbn.
      split; [reflexivity|]. split; [reflexivity|]. intros; lia.
    - replace (Nat.max 1 (length d0)) with (length d0) by lia.
      apply (for_range_ind (dst_inv c d0)); [lia| |].
      + unfold dst_inv. cbn. split; [reflexivity|]. split; [reflexivity|]. intros; lia.
      + intros i t Hi. now apply dst_inv_step. }
  destruct H as (Hlen & Hfr & Hdone).
  split; [congruence|]. split.
  - intros Hpos. rewrite Hfr by lia. unfold d0.
    now apply list_lookup_total_insert_eq.
  - intros i Hi. rewrite Hdone by lia. unfold dst_hour, d0.
    now rewrite !list_lookup_total_insert_ne by lia.
Qed.

(** ** One hour of the hydrogen variants *)

Lemma nuc_hour_bounds c w l n :
  0 <= SvK_EF_nuclear.impl c -> 0 <= SvK_EF_nuclear.expl c ->
  0 <= SvK_EF_nuclear.d_imp (SvK_EF_nuclear.dispatch c w l n) /\
  SvK_EF_nuclear.d_imp (SvK_EF_nuclear.dispatch c w l n) <= SvK_EF_nuclear.impl c /\
  0 <= SvK_EF_nuclear.d_exp (SvK_EF_nuclear.dispatch c w l n) /\
  SvK_EF_nuclear.d_exp (SvK_EF_nuclear.dispatch c w l n) <= SvK_EF_nuclear.expl c.
Proof.
  intros Hi He. unfold SvK_EF_nuclear.dispatch.
  repeat qtest; cbn [SvK_EF_nuclear.d_imp SvK_EF_nuclear.d_exp];
    repeat qminmax; repeat split; lra.
Qed.

Lemma dst_hour_bounds c m l :
  0 <= SvK_EF_wind.impl c -> 0 <= SvK_EF_wind.expl c ->
  0 <= SvK_EF_wind.d_imp (SvK_EF_wind.dispatch c m l) /\
  SvK_EF_wind.d_imp (SvK_EF_wind.dispatch c m l) <= SvK_EF_wind.impl c /\
  0 <= SvK_EF_wind.d_exp (SvK_EF_wind.dispatch c m l) /\
  SvK_EF_wind.d_exp (SvK_EF_wind.dispatch c m l) <= SvK_EF_wind.expl c.
Proof.
  intros Hi He. unfold SvK_EF_wind.dispatch.
  repeat qtest; cbn [SvK_EF_wind.d_imp SvK_EF_wind.d_exp];
    repeat qminmax; repeat split; lra.
Qed.

(** ** Import and export *)

Lemma hrows_hour_ge_2 disp c mt df out :
  hbalance_rows disp c mt df out ->
  (forall w l n o e u, 2 <= o -> d_water (disp c w l n o e u) <= o) ->
  (forall i, (i < length df)%nat -> 2 <= Inflow (df !!! i)) ->
  forall i, (1 <= i < length df)%nat ->
    2 <= Store (out !!! (i - 1)%nat) /\
    out !!! i = hwrite_row (df !!! i) (Store (out !!! (i - 1)%nat))
                  (hour disp c mt df i (Store (out !!! (i - 1)%nat))).
Proof.
  intros Hrows Hw Hin i Hi. split.
  - apply (hrows_store_ge_2 disp c mt df out Hrows Hw Hin). lia.
  - destruct Hrows as (_ & _ & H). now apply H.
Qed.

Lemma inflow_ge_2 (df : list hrow) :
  (forall j, (j < length df)%nat -> 2.8 <= Inflow (df !!! j)) ->
  forall j, (j < length df)%nat -> 2 <= Inflow (df !!! j).
Proof. intros H j Hj. specialize (H j Hj). lra. Qed.

Lemma spb_import_export c mt st i :
  hconfig_ok c ->
  (forall j, (j < length (h_df st))%nat -> 2.8 <= Inflow (h_df st !!! j)) ->
  (i < length (h_df st))%nat ->
  (0 <= Import (h_df (SwedenPowerBalance.balance c mt st) !!! i) /\
   Import (h_df (SwedenPowerBalance.balance c mt st) !!! i) <= impl c) /\
  (0 <= Export (h_df (SwedenPowerBalance.balance c mt st) !!! i) /\
   Export (h_df (SwedenPowerBalance.balance c mt st) !!! i) <= expl c).
Proof.
  intros Hc Hin Hi.
  pose proof (spb_balance_rows c mt st) as Hrows.
  destruct (decide (i = 0%nat)) as [->|Hne].
  - destruct Hrows as (_ & H0 & _). rewrite H0 by lia.
    destruct Hc as (_ & ? & ?). cbn. repeat split; lra.
  - destruct (hrows_hour_ge_2 _ c mt _ _ Hrows
                (fun w l n o e u => spb_water_le c w l n o e u Hc)
                (inflow_ge_2 _ Hin) i ltac:(lia)) as (Ho & ->).
    cbn [Import Export hwrite_row]. unfold hour.
    match goal with |- context [SwedenPowerBalance.dispatch c ?w ?l ?n ?o ?e ?u] =>
      pose proof (spb_hour_bounds c w l n o e u Hc Ho) as (_ & _ & _ & ? & ? & ? & ?)
    end.
    repeat split; assumption.
Qed.

Lemma se3_import_export c mt st i :
  hconfig_ok c ->
  (forall j, (j < length (h_df st))%nat -> 2.8 <= Inflow (h_df st !!! j)) ->
  (i < length (h_df st))%nat ->
  (0 <= Import (h_df (SE300wind.balance c mt st) !!! i) /\
   Import (h_df (SE300wind.balance c mt st) !!! i) <= impl c) /\
  (0 <= Export (h_df (SE300wind.balance c mt st) !!! i) /\
   Export (h_df (SE300wind.balance c mt st) !!! i) <= expl c).
Proof.
  intros Hc Hin Hi.
  pose proof (se3_balance_rows c mt st) as Hrows.
  destruct (decide (i = 0%nat)) as [->|Hne].
  - destruct Hrows as (_ & H0 & _). rewrite H0 by lia.
    destruct Hc as (_ & ? & ?). cbn. repeat split; lra.
  - destruct (hrows_hour_ge_2 _ c mt _ _ Hrows
                (fun w l n o e u => se3_water_le c w l n o e u Hc)
                (inflow_ge_2 _ Hin) i ltac:(lia)) as (Ho & ->).
    cbn [Import Export hwrite_row]. unfold hour.
    match goal with |- context [SE300wind.dispatch c ?w ?l ?n ?o ?e ?u] =>
      pose proof (se3_hour_bounds c w l n o e u Hc Ho) as (_ & _ & _ & ? & ? & ? & ?)
    end.
    repeat split; assumption.
Qed.

Lemma nuc_import_export c s i :
  0 <= SvK_EF_nuclear.impl c -> 0 <= SvK_EF_nuclear.expl c ->
  (i < length (SvK_EF_nuclear.df s))%nat ->
  (0 <= SvK_EF_nuclear.Import (SvK_EF_nuclear.df (SvK_EF_nuclear.balance c s) !!! i) /\
   SvK_EF_nuclear.Import (SvK_EF_nuclear.df (SvK_EF_nuclear.balance c s) !!! i)
   <= SvK_EF_nuclear.impl c) /\
  (0 <= SvK_EF_nuclear.Export (SvK_EF_nuclear.df (SvK_EF_nuclear.balance c s) !!! i) /\
   SvK_EF_nuclear.Export (SvK_EF_nuclear.df (SvK_EF_nuclear.balance c s) !!! i)
   <= SvK_EF_nuclear.expl c).
Proof.
  intros HI HE Hi.
  destruct (nuc_balance_rows c s) as (_ & H0 & Hr).
  destruct (decide (i = 0%nat)) as [->|Hne].
  - rewrite H0 by lia. cbn. repeat split; lra.
  - rewrite Hr by lia. cbn [SvK_EF_nuclear.Import SvK_EF_nuclear.Export SvK_EF_nuclear.write_row].
    unfold nuc_hour.
    match goal with |- context [SvK_EF_nuclear.dispatch c ?w ?l ?n] =>
      pose proof (nuc_hour_bounds c w l n HI HE) as (? & ? & ? & ?)
    end.
    repeat split; assumption.
Qed.

Lemma dst_import_export c s i :
  0 <= SvK_EF_wind.impl c -> 0 <= SvK_EF_wind.expl c ->
  (i < length (SvK_EF_wind.df s))%nat ->
  (0 <= SvK_EF_wind.Import (SvK_EF_wind.df (SvK_EF_wind.balance c s) !!! i) /\
   SvK_EF_wind.Import (SvK_EF_wind.df (SvK_EF_wind.balance c s) !!! i)
   <= SvK_EF_wind.impl c) /\
  (0 <= SvK_EF_wind.Export (SvK_EF_wind.df (SvK_EF_wind.balance c s) !!! i) /\
   SvK_EF_wind.Export (SvK_EF_wind.df (SvK_EF_wind.balance c s) !!! i)
   <= SvK_EF_wind.expl c).
Proof.
  intros HI HE Hi.
  destruct (dst_balance_rows c s) as (_ & H0 & Hr).
  destruct (decide (i = 0%nat)) as [->|Hne].
  - rewrite H0 by lia. cbn. repeat split; lra.
  - rewrite Hr by lia. cbn [SvK_EF_wind.Import SvK_EF_wind.Export SvK_EF_wind.write_row].
    unfold dst_hour.
    match goal with |- context [SvK_EF_wind.dispatch c ?m ?l] =>
      pose proof (dst_hour_bounds c m l HI HE) as (? & ? & ? & ?)
    end.
    repeat split; assumption.
Qed.

(** C4: with capacities that are not negative (and, for the reservoir
    variants, the inflow of at least 2.8 that keeps the reservoir filled),
    every row of the frame of every variant, row 0 included, holds an import
    between 0 and [impl] and an export between 0 and [expl]. *)
Theorem C4_import_export_bounds
    (c : hconfig) (mt : Z -> nat -> Q) (st : hstate)
    (cn : SvK_EF_nuclear.config) (sn : SvK_EF_nuclear.state)
    (cw : SvK_EF_wind.config) (sw : SvK_EF_wind.state) :
  hconfig_ok c ->
  (forall j, (j < length (h_df st))%nat -> 2.8 <= Inflow (h_df st !!! j)) ->
  0 <= SvK_EF_nuclear.impl cn -> 0 <= SvK_EF_nuclear.expl cn ->
  0 <= SvK_EF_wind.impl cw -> 0 <= SvK_EF_wind.expl cw ->
  (forall i, (i < length (h_df st))%nat ->
     (0 <= Import (h_df (SwedenPowerBalance.balance c mt st) !!! i) /\
      Import (h_df (SwedenPowerBalance.balance c mt st) !!! i) <= impl c) /\
     (0 <= Export (h_df (SwedenPowerBalance.balance c mt st) !!! i) /\
      Export (h_df (SwedenPowerBalance.balance c mt st) !!! i) <= expl c)) /\
  (forall i, (i < length (h_df st))%nat ->
     (0 <= Import (h_df (SE300wind.balance c mt st) !!! i) /\
      Import (h_df (SE300wind.balance c mt st) !!! i) <= impl c) /\
     (0 <= Export (h_df (SE300wind.balance c mt st) !!! i) /\
      Export (h_df (SE300wind.balance c mt st) !!! i) <= expl c)) /\
  (forall i, (i < length (SvK_EF_nuclear.df sn))%nat ->
     (0 <= SvK_EF_nuclear.Import (SvK_EF_nuclear.df (SvK_EF_nuclear.balance cn sn) !!! i) /\
      SvK_EF_nuclear.Import (SvK_EF_nuclear.df (SvK_EF_nuclear.balance cn sn) !!! i)
      <= SvK_EF_nuclear.impl cn) /\
     (0 <= SvK_EF_nuclear.Export (SvK_EF_nuclear.df (SvK_EF_nuclear.balance cn sn) !!! i) /\
      SvK_EF_nuclear.Export (SvK_EF_nuclear.df (SvK_EF_nuclear.balance cn sn) !!! i)
      <= SvK_EF_nuclear.expl cn)) /\
  (forall i, (i < length (SvK_EF_wind.df sw))%nat ->
     (0 <= SvK_EF_wind.Import (SvK_EF_wind.df (SvK_EF_wind.balance cw sw) !!! i) /\
      SvK_EF_wind.Import (SvK_EF_wind.df (SvK_EF_wind.balance cw sw) !!! i)
      <= SvK_EF_wind.impl cw) /\
     (0 <= SvK_EF_wind.Export (SvK_EF_wind.df (SvK_EF_wind.balance cw sw) !!! i) /\
      SvK_EF_wind.Export (SvK_EF_wind.df (SvK_EF_wind.balance cw sw) !!! i)
      <= SvK_EF_wind.expl cw)).
Proof.
  intros Hc Hin HnI HnE HwI HwE.
  split; [|split; [|split]]; intros i Hi.
  - now apply spb_import_export.
  - now apply se3_import_export.
  - now apply nuc_import_export.
  - now apply dst_import_export.
Qed.

Lemma C4_import_export_bounds_witness :
  ((0 <= Import (h_df (SwedenPowerBalance.balance SwedenPowerBalance.config half_stream hstate4) !!! 2%nat) /\
    Import (h_df (SwedenPowerBalance.balance SwedenPowerBalance.config half_stream hstate4) !!! 2%nat)
    <= impl SwedenPowerBalance.config) /\
   (0 <= Export (h_df (SwedenPowerBalance.balance SwedenPowerBalance.config half_stream hstate4) !!! 2%nat) /\
    Export (h_df (SwedenPowerBalance.balance SwedenPowerBalance.config half_stream hstate4) !!! 2%nat)
    <= expl SwedenPowerBalance.config)) /\
  ((0 <= SvK_EF_wind.Import
           (SvK_EF_wind.df (SvK_EF_wind.balance SvK_EF_wind.script_config wstate3) !!! 1%nat) /\
    SvK_EF_wind.Import
      (SvK_EF_wind.df (SvK_EF_wind.balance SvK_EF_wind.script_config wstate3) !!! 1%nat)
    <= SvK_EF_wind.impl SvK_EF_wind.script_config) /\
   (0 <= SvK_EF_wind.Export
           (SvK_EF_wind.df (SvK_EF_wind.balance SvK_EF_wind.script_config wstate3) !!! 1%nat) /\
    SvK_EF_wind.Export
      (SvK_EF_wind.df (SvK_EF_wind.balance SvK_EF_wind.script_config wstate3) !!! 1%nat)
    <= SvK_EF_wind.expl SvK_EF_wind.script_config)).
Proof.
  assert (Hn1 : 0 <= SvK_EF_nuclear.impl SvK_EF_nuclear.script_config) by (cbn; lra).
  assert (Hn2 : 0 <= SvK_EF_nuclear.expl SvK_EF_nuclear.script_config) by (cbn; lra).
  assert (Hw1 : 0 <= SvK_EF_wind.impl SvK_EF_wind.script_config) by (cbn; lra).
  assert (Hw2 : 0 <= SvK_EF_wind.expl SvK_EF_wind.script_config) by (cbn; lra).
  pose proof (C4_import_export_bounds SwedenPowerBalance.config half_stream hstate4
                SvK_EF_nuclear.script_config nstate3 SvK_EF_wind.script_config wstate3
                (proj1 script_config_ok) hframe4_inflow Hn1 Hn2 Hw1 Hw2)
    as (H1 & _ & _ & H4).
  split.
  - apply (H1 2%nat). cbn. lia.
  - apply (H4 1%nat). cbn. lia.
Defined.

(** ** The hydro power written by the reservoir variants *)

(** [SE300wind.py] keeps the exchange above the minimum: the hydro power it
    writes is between 2 and [wlim] and at most the level of the hour before. *)
Lemma se3_waout_bounds c mt st i :
  hconfig_ok c ->
  (forall j, (j < length (h_df st))%nat -> 2.8 <= Inflow (h_df st !!! j)) ->
  (1 <= i < length (h_df st))%nat ->
  2 <= Waout (h_df (SE300wind.balance c mt st) !!! i) /\
  Waout (h_df (SE300wind.balance c mt st) !!! i) <= wlim c /\
  Waout (h_df (SE300wind.balance c mt st) !!! i)
  <= Store (h_df (SE300wind.balance c mt st) !!! (i - 1)%nat).
Proof.
  intros Hc Hin Hi.
  destruct (hrows_hour_ge_2 _ c mt _ _ (se3_balance_rows c mt st)
              (fun w l n o e u => se3_water_le c w l n o e u Hc)
              (inflow_ge_2 _ Hin) i Hi) as (Ho & Hrow).
  rewrite Hrow at 1 2 3. cbn [Waout hwrite_row]. unfold hour.
  match goal with |- context [SE300wind.dispatch c ?w ?l ?n ?o ?e ?u] =>
    pose proof (se3_hour_bounds c w l n o e u Hc Ho) as (? & ? & ? & _)
  end.
  repeat split; assumption.
Qed.

(** [SwedenPowerBalance.py] keeps the two upper bounds, and the floor 0. *)
Lemma spb_waout_upper c mt st i :
  hconfig_ok c ->
  (forall j, (j < length (h_df st))%nat -> 2.8 <= Inflow (h_df st !!! j)) ->
  (1 <= i < length (h_df st))%nat ->
  0 <= Waout (h_df (SwedenPowerBalance.balance c mt st) !!! i) /\
  Waout (h_df (SwedenPowerBalance.balance c mt st) !!! i) <= wlim c /\
  Waout (h_df (SwedenPowerBalance.balance c mt st) !!! i)
  <= Store (h_df (SwedenPowerBalance.balance c mt st) !!! (i - 1)%nat).
Proof.
  intros Hc Hin Hi.
  destruct (hrows_hour_ge_2 _ c mt _ _ (spb_balance_rows c mt st)
              (fun w l n o e u => spb_water_le c w l n o e u Hc)
              (inflow_ge_2 _ Hin) i Hi) as (Ho & Hrow).
  rewrite Hrow at 1 2 3. cbn [Waout hwrite_row]. unfold hour.
  match goal with |- context [SwedenPowerBalance.dispatch c ?w ?l ?n ?o ?e ?u] =>
    pose proof (spb_hour_bounds c w l n o e u Hc Ho) as (? & ? & ? & _)
  end.
  repeat split; assumption.
Qed.

(** In [SwedenPowerBalance.py] a first hour with surplus always ends below
    the minimum: the exchange takes a positive amount out of [water = 2]. *)
Lemma spb_surplus_hour_1 c mt st :
  0 < impl c ->
  (2 <= length (h_df st))%nat ->
  Tout (h_df st !!! 1%nat) <= Wind (h_df st !!! 1%nat) + Nuclear (h_df st !!! 1%nat) ->
  0 <= mt 5%Z 0%nat ->
  Waout (h_df (SwedenPowerBalance.balance c mt st) !!! 1%nat) < 2.
Proof.
  intros HI Hlen Hsur Hu.
  destruct (spb_balance_rows c mt st) as (_ & _ & Hr).
  rewrite (Hr 1%nat) by lia. cbn [Waout hwrite_row]. unfold hour.
  cbn [Nat.sub ema_at]. unfold SwedenPowerBalance.dispatch. cbn [d_water].
  unfold imp_level, alfa.
  repeat qtest; repeat qminmax; lra.
Qed.

(** C1, at an input where [SwedenPowerBalance.py] leaves the interval: hour 1
    of the frame is a surplus hour, [water] is set to the minimum 2, and the
    water-to-import exchange then takes 1.1 out of it; 0.9 is written.  The
    same hour in [SE300wind.py] writes 2. *)
Theorem C1_waout_below_minimum :
  Waout (h_df (SwedenPowerBalance.balance SwedenPowerBalance.config half_stream hstate4) !!! 1%nat)
  == 0.9 /\
  Waout (h_df (SwedenPowerBalance.balance SwedenPowerBalance.config half_stream hstate4) !!! 1%nat)
  < 2 /\
  Waout (h_df (SE300wind.balance SE300wind.config half_stream hstate4) !!! 1%nat) == 2.
Proof. vm_compute. repeat split; reflexivity || discriminate. Qed.

(** ** The hydrogen loop of the reservoir variants *)

Lemma spb_hydrogen_body_df i s :
  SwedenPowerBalance.h2_df (SwedenPowerBalance.hydrogen_body i s)
  = <[i := h2_row spb_gain (SwedenPowerBalance.h2_df s !!! i)
             (SwedenPowerBalance.h2_df s !!! (i - 1)%nat)]> (SwedenPowerBalance.h2_df s).
Proof.
  unfold SwedenPowerBalance.hydrogen_body, h2_row, spb_gain. cbv zeta.
  destruct (_ >=? _); reflexivity.
Qed.

Lemma se3_hydrogen_body_df elyscap i s :
  SE300wind.h2_df (SE300wind.hydrogen_body elyscap i s)
  = <[i := h2_row (se3_gain elyscap) (SE300wind.h2_df s !!! i)
             (SE300wind.h2_df s !!! (i - 1)%nat)]> (SE300wind.h2_df s).
Proof.
  unfold SE300wind.hydrogen_body, h2_row, se3_gain. cbv zeta.
  destruct (_ >=? _); reflexivity.
Qed.

Lemma h2_inv_step gain d0 k df :
  (1 <= k < length d0)%nat ->
  h2_inv gain d0 k df ->
  h2_inv gain d0 (S k) (<[k := h2_row gain (df !!! k) (df !!! (k - 1)%nat)]> df).
Proof.
  intros Hk (Hlen & Hfr & Hdone). unfold h2_inv.
  split; [|split].
  - now rewrite length_insert.
  - intros j Hj. rewrite list_lookup_total_insert_ne by lia. apply Hfr. lia.
  - intros j Hj. destruct (decide (j = k)) as [->|Hne].
    + rewrite list_lookup_total_insert_eq by lia.
      rewrite list_lookup_total_insert_ne by lia.
      rewrite (Hfr k) by lia. reflexivity.
    + rewrite !list_lookup_total_insert_ne by lia. apply Hdone. lia.
Qed.

Lemma h2_inv_rows gain df out :
  let d1 := SwedenPowerBalance.set_residual <$> df in
  let d0 := <[0%nat := SwedenPowerBalance.set_h2 (d1 !!! 0%nat) 0 0]> d1 in
  h2_inv gain d0 (Nat.max 1 (length d0)) out -> h2_rows gain df out.
Proof.
  intros d1 d0 (Hlen & Hfr & Hdone).
  assert (Hd1 : length d1 = length df) by apply length_fmap.
  assert (Hd0 : length d0 = length df) by (unfold d0; now rewrite length_insert).
  split; [congruence|]. split.
  - intros Hpos. rewrite Hfr by lia. unfold d0.
    rewrite list_lookup_total_insert_eq by lia.
    unfold d1.
    now rewrite (list_lookup_total_fmap SwedenPowerBalance.set_residual df 0) by lia.
  - intros i Hi. rewrite Hdone by lia. unfold d0.
    rewrite list_lookup_total_insert_ne by lia.
    unfold d1.
    now rewrite (list_lookup_total_fmap SwedenPowerBalance.set_residual df i) by lia.
Qed.

Lemma spb_hydrogen_rows df :
  h2_rows spb_gain df (SwedenPowerBalance.h2_df (SwedenPowerBalance.hydrogen df)).
Proof.
  apply h2_inv_rows. unfold SwedenPowerBalance.hydrogen. cbv zeta.
  set (d0 := <[0%nat := _]> _).
  destruct (decide (length d0 <= 1)%nat) as [Hs|Hl].
  - rewrite for_range_empty by lia. unfold h2_inv. cbn.
    split; [reflexivity|]. split; [reflexivity|]. intros; lia.
  - replace (Nat.max 1 (length d0)) with (length d0) by lia.
    apply (for_range_ind (fun k s => h2_inv spb_gain d0 k (SwedenPowerBalance.h2_df s)));
      [lia| |].
    + unfold h2_inv. cbn. split; [reflexivity|]. split; [reflexivity|]. intros; lia.
    + intros i t Hi Hinv. rewrite spb_hydrogen_body_df. now apply h2_inv_step.
Qed.

Lemma se3_hydrogen_rows elyscap df :
  h2_rows (se3_gain elyscap) df (SE300wind.h2_df (SE300wind.hydrogen elyscap df)).
Proof.
  apply h2_inv_rows. unfold SE300wind.hydrogen. cbv zeta.
  set (d0 := <[0%nat := _]> _).
  destruct (decide (length d0 <= 1)%nat) as [Hs|Hl].
  - rewrite for_range_empty by lia. unfold h2_inv. cbn.
    split; [reflexivity|]. split; [reflexivity|]. intros; lia.
  - replace (Nat.max 1 (length d0)) with (length d0) by lia.
    apply (for_range_ind (fun k s => h2_inv (se3_gain elyscap) d0 k (SE300wind.h2_df s)));
      [lia| |].
    + unfold h2_inv. cbn. split; [reflexivity|]. split; [reflexivity|]. intros; lia.
    + intros i t Hi Hinv. rewrite se3_hydrogen_body_df. now apply h2_inv_step.
Qed.

(** C5, amended.  For every hour [i >= 1] of the hydrogen loop, the residual
    being [Pout - Tout] of the hour: in [SwedenPowerBalance.py] the store
    gains 0.02 per unit of a residual that is not negative and loses 0.05 per
    unit of magnitude of a negative one; in [SE300wind.py] the loss is the
    same and the gain is 0.02 per unit of [min(residual, elyscap)]. *)
Theorem C5_hydrogen_rates (elyscap : Q) (df : list hrow) (i : nat) :
  (1 <= i < length df)%nat ->
  let spb := SwedenPowerBalance.h2_df (SwedenPowerBalance.hydrogen df) in
  let se3 := SE300wind.h2_df (SE300wind.hydrogen elyscap df) in
  (Residual (spb !!! i) = Pout (df !!! i) - Tout (df !!! i) /\
   (0 <= Residual (spb !!! i) ->
    Hydrogen (spb !!! i) = Hydrogen (spb !!! (i - 1)%nat) + 0.02 * Residual (spb !!! i)) /\
   (Residual (spb !!! i) < 0 ->
    Hydrogen (spb !!! i) = Hydrogen (spb !!! (i - 1)%nat) + 0.05 * Residual (spb !!! i))) /\
  (Residual (se3 !!! i) = Pout (df !!! i) - Tout (df !!! i) /\
   (0 <= Residual (se3 !!! i) ->
    Hydrogen (se3 !!! i)
    = Hydrogen (se3 !!! (i - 1)%nat) + 0.02 * Qmin (Residual (se3 !!! i)) elyscap) /\
   (Residual (se3 !!! i) < 0 ->
    Hydrogen (se3 !!! i) = Hydrogen (se3 !!! (i - 1)%nat) + 0.05 * Residual (se3 !!! i))).
Proof.
  intros Hi spb se3.
  destruct (spb_hydrogen_rows df) as (_ & _ & Hs). fold spb in Hs.
  destruct (se3_hydrogen_rows elyscap df) as (_ & _ & He). fold se3 in He.
  split.
  - rewrite (Hs i Hi). cbn [Residual Hydrogen h2_row SwedenPowerBalance.set_h2
                            SwedenPowerBalance.set_residual].
    split; [reflexivity|]. unfold spb_gain. split; intros H; qtest; try reflexivity; lra.
  - rewrite (He i Hi). cbn [Residual Hydrogen h2_row SwedenPowerBalance.set_h2
                            SwedenPowerBalance.set_residual].
    split; [reflexivity|]. unfold se3_gain. split; intros H; qtest; try reflexivity; lra.
Qed.

Lemma C5_hydrogen_rates_witness :
  Hydrogen (SwedenPowerBalance.simulate SwedenPowerBalance.config half_stream hstate4 !!! 1%nat)
  = Hydrogen (SwedenPowerBalance.simulate SwedenPowerBalance.config half_stream hstate4 !!! 0%nat)
    + 0.02 * Residual (SwedenPowerBalance.simulate SwedenPowerBalance.config half_stream hstate4 !!! 1%nat).
Proof.
  assert (H : (1 <= 1 < length (h_df (SwedenPowerBalance.balance
                                       SwedenPowerBalance.config half_stream hstate4)))%nat)
    by (vm_compute; lia).
  apply (proj1 (proj2 (proj1 (C5_hydrogen_rates 0 _ 1%nat H)))).
  vm_compute. discriminate.
Defined.

(** C5 as stated fails in [SE300wind.py]: hour 1 of the frame has the
    residual 13, and the hydrogen store stays at 0 instead of gaining 0.26,
    because the gain is capped by [elyscap = 0]. *)
Lemma C5_hydrogen_rates_counterexample :
  0 <= Residual (SE300wind.simulate SE300wind.config half_stream hstate4 !!! 1%nat) /\
  ~ Hydrogen (SE300wind.simulate SE300wind.config half_stream hstate4 !!! 1%nat)
    == Hydrogen (SE300wind.simulate SE300wind.config half_stream hstate4 !!! 0%nat)
       + 0.02 * Residual (SE300wind.simulate SE300wind.config half_stream hstate4 !!! 1%nat).
Proof. vm_compute. split; discriminate. Qed.

(** ** Determinism of the reservoir variants *)

Lemma list_eq_total {A : Type} `{Inhabited A} (l1 l2 : list A) :
  length l1 = length l2 ->
  (forall i, (i < length l1)%nat -> l1 !!! i = l2 !!! i) ->
  l1 = l2.
Proof.
  intros Hlen Heq. apply list_eq. intros i.
  destruct (decide (i < length l1)%nat) as [Hi|Hi].
  - rewrite !list_lookup_lookup_total_lt by lia. f_equal. now apply Heq.
  - rewrite !lookup_ge_None_2 by lia. reflexivity.
Qed.

Lemma hkey_init c r1 r2 x y :
  same_inputs r1 r2 -> hkey (hinit_row c r1) x y = hkey (hinit_row c r2) x y.
Proof.
  intros (Hw & Ht & Hn & Hi). unfold hkey, hinit_row. cbn.
  now rewrite Hw, Ht, Hn, Hi.
Qed.

Lemma hkey_write r1 r2 o d x y :
  same_inputs r1 r2 -> hkey (hwrite_row r1 o d) x y = hkey (hwrite_row r2 o d) x y.
Proof.
  intros (Hw & Ht & Hn & Hi). unfold hkey, hwrite_row. cbn.
  now rewrite Hw, Ht, Hn, Hi.
Qed.

Lemma hkey_store r x y : Store (hkey r x y) = Store r.
Proof. reflexivity. Qed.

Lemma hbalance_rows_det disp c mt df1 df2 out1 out2 :
  same_input_frames df1 df2 ->
  hbalance_rows disp c mt df1 out1 ->
  hbalance_rows disp c mt df2 out2 ->
  forall i, (i < length df1)%nat ->
    forall x y, hkey (out1 !!! i) x y = hkey (out2 !!! i) x y.
Proof.
  intros (Hlen & Hsame) (_ & H1 & Hr1) (_ & H2 & Hr2).
  induction i as [|i IH]; intros Hi x y.
  - rewrite H1, H2 by lia. apply hkey_init, Hsame. lia.
  - specialize (IH ltac:(lia)).
    assert (Hst : Store (out1 !!! i) = Store (out2 !!! i)).
    { rewrite <- (hkey_store (out1 !!! i) 0 0), <- (hkey_store (out2 !!! i) 0 0).
      now rewrite IH. }
    rewrite Hr1, Hr2 by lia. replace (S i - 1)%nat with i by lia.
    rewrite Hst. unfold hour.
    destruct (Hsame (S i) Hi) as (Hw & Ht & Hn & Hin).
    rewrite Hw, Ht, Hn. apply hkey_write. now repeat split.
Qed.

Lemma h2_rows_det gain b1 b2 out1 out2 :
  length b1 = length b2 ->
  (forall i, (i < length b1)%nat -> forall x y, hkey (b1 !!! i) x y = hkey (b2 !!! i) x y) ->
  h2_rows gain b1 out1 -> h2_rows gain b2 out2 ->
  out1 = out2.
Proof.
  intros Hlen Hkey (Hl1 & H1 & Hr1) (Hl2 & H2 & Hr2).
  apply list_eq_total; [congruence|]. rewrite Hl1.
  induction i as [|i IH]; intros Hi.
  - rewrite H1, H2 by lia. apply (Hkey 0%nat Hi).
  - specialize (IH ltac:(lia)).
    rewrite Hr1, Hr2 by lia. replace (S i - 1)%nat with i by lia.
    rewrite IH. unfold h2_row.
    assert (Hres : Residual (SwedenPowerBalance.set_residual (b1 !!! S i))
                   = Residual (SwedenPowerBalance.set_residual (b2 !!! S i))).
    { change (Residual (hkey (b1 !!! S i) 0 0) = Residual (hkey (b2 !!! S i) 0 0)).
      now rewrite (Hkey (S i) Hi). }
    rewrite Hres. apply (Hkey (S i) Hi).
Qed.

Lemma spb_simulate_det c mt st1 st2 :
  same_input_frames (h_df st1) (h_df st2) ->
  SwedenPowerBalance.simulate c mt st1 = SwedenPowerBalance.simulate c mt st2.
Proof.
  intros Hsame. unfold SwedenPowerBalance.simulate.
  pose proof (spb_balance_rows c mt st1) as R1.
  pose proof (spb_balance_rows c mt st2) as R2.
  apply (h2_rows_det spb_gain _ _ _ _) with (3 := spb_hydrogen_rows _)
                                            (4 := spb_hydrogen_rows _).
  - destruct R1 as (-> & _), R2 as (-> & _). apply Hsame.
  - destruct (R1) as (-> & _). now apply (hbalance_rows_det _ c mt _ _ _ _ Hsame R1 R2).
Qed.

Lemma se3_simulate_det c mt st1 st2 :
  same_input_frames (h_df st1) (h_df st2) ->
  SE300wind.simulate c mt st1 = SE300wind.simulate c mt st2.
Proof.
  intros Hsame. unfold SE300wind.simulate.
  pose proof (se3_balance_rows c mt st1) as R1.
  pose proof (se3_balance_rows c mt st2) as R2.
  apply (h2_rows_det (se3_gain SE300wind.elyscap) _ _ _ _)
    with (3 := se3_hydrogen_rows _ _) (4 := se3_hydrogen_rows _ _).
  - destruct R1 as (-> & _), R2 as (-> & _). apply Hsame.
  - destruct (R1) as (-> & _). now apply (hbalance_rows_det _ c mt _ _ _ _ Hsame R1 R2).
Qed.

(** C9: the frame a run of either reservoir variant ends with depends only
    on the configuration, the seeded stream and the exogenous columns: two
    runs that agree on these, whatever the generator state and the other
    cells they start from, end with the same frame, cell by cell. *)
Theorem C9_runs_identical c mt st1 st2 :
  same_input_frames (h_df st1) (h_df st2) ->
  SwedenPowerBalance.simulate c mt st1 = SwedenPowerBalance.simulate c mt st2 /\
  SE300wind.simulate c mt st1 = SE300wind.simulate c mt st2.
Proof.
  intros Hsame. split.
  - now apply spb_simulate_det.
  - now apply se3_simulate_det.
Qed.

Lemma hstate4_same_inputs : same_input_frames (h_df hstate4) (h_df hstate4_dirty).
Proof.
  split; [reflexivity|]. intros i Hi.
  do 4 (destruct i as [|i]; [cbn; repeat split; reflexivity|]).
  cbn in Hi. lia.
Qed.

Lemma C9_runs_identical_witness :
  SwedenPowerBalance.simulate SwedenPowerBalance.config half_stream hstate4
  = SwedenPowerBalance.simulate SwedenPowerBalance.config half_stream hstate4_dirty /\
  SE300wind.simulate SwedenPowerBalance.config half_stream hstate4
  = SE300wind.simulate SwedenPowerBalance.config half_stream hstate4_dirty.
Proof.
  exact (C9_runs_identical SwedenPowerBalance.config half_stream hstate4 hstate4_dirty
           hstate4_same_inputs).
Defined.

Lemma h2_rows_inputs gain b out i :
  h2_rows gain b out -> (i < length b)%nat -> same_inputs (out !!! i) (b !!! i).
Proof.
  intros (_ & H0 & Hr) Hi.
  destruct (decide (i = 0%nat)) as [->|Hne].
  - rewrite H0 by lia. now unfold same_inputs.
  - rewrite Hr by lia. now unfold same_inputs.
Qed.

(** Running the script a second time on the frame it has filled, from
    whatever state the generator is left in, fills it the same way. *)
Lemma spb_simulate_again c mt st g :
  SwedenPowerBalance.simulate c mt (mk_hstate (SwedenPowerBalance.simulate c mt st) g)
  = SwedenPowerBalance.simulate c mt st.
Proof.
  apply spb_simulate_det. cbn [h_df].
  pose proof (spb_balance_rows c mt st) as Hb.
  pose proof (spb_hydrogen_rows (h_df (SwedenPowerBalance.balance c mt st))) as Hh.
  unfold SwedenPowerBalance.simulate.
  assert (Hlen : length (SwedenPowerBalance.h2_df
                           (SwedenPowerBalance.hydrogen
                              (h_df (SwedenPowerBalance.balance c mt st))))
                 = length (h_df st)).
  { destruct Hh as (-> & _), Hb as (-> & _). reflexivity. }
  split; [exact Hlen|]. rewrite Hlen. intros i Hi.
  assert (Hi' : (i < length (h_df (SwedenPowerBalance.balance c mt st)))%nat).
  { destruct Hb as (-> & _). exact Hi. }
  destruct (h2_rows_inputs _ _ _ i Hh Hi') as (a1 & a2 & a3 & a4).
  destruct (hrows_inputs _ _ _ _ _ Hb i Hi) as (b1 & b2 & b3 & b4).
  unfold same_inputs. repeat split; congruence.
Qed.

(** ** The three-hour scenario *)

(** One hour of the scenario: with any level of at least 2 in the reservoir
    (100 as well as 20000) the hydro power is 2, nothing is imported or
    exported, and the draw of the exchange changes nothing. *)
Lemma config6_hour load o e u :
  2 <= o -> load == 8 \/ load == 12 \/ load == 6 ->
  d_water (SwedenPowerBalance.dispatch config6 5 load 5 o e u) == 2 /\
  d_imp (SwedenPowerBalance.dispatch config6 5 load 5 o e u) == 0 /\
  d_exp (SwedenPowerBalance.dispatch config6 5 load 5 o e u) == 0.
Proof.
  intros Ho Hl. unfold SwedenPowerBalance.dispatch. cbn [d_water d_imp d_exp].
  unfold config6. cbn [wlim impl expl].
  destruct Hl as [Hl | [Hl | Hl]];
    repeat qtest; repeat qminmax; repeat split; lra.
Qed.

Lemma config6_rows mt g i :
  (1 <= i < 4)%nat ->
  let b := h_df (SwedenPowerBalance.balance config6 mt (mk_hstate frame6 g)) in
  let out := SwedenPowerBalance.simulate config6 mt (mk_hstate frame6 g) in
  Waout (out !!! i) = Waout (b !!! i) /\
  Residual (out !!! i) = Pout (b !!! i) - Tout (b !!! i) /\
  2 <= Store (b !!! (i - 1)%nat) /\
  b !!! i = hwrite_row (frame6 !!! i) (Store (b !!! (i - 1)%nat))
              (hour SwedenPowerBalance.dispatch config6 mt frame6 i
                 (Store (b !!! (i - 1)%nat))).
Proof.
  intros Hi b out.
  assert (Hc : hconfig_ok config6) by (unfold hconfig_ok; cbn; repeat split; lra).
  assert (Hin : forall j, (j < length frame6)%nat -> 2 <= Inflow (frame6 !!! j)).
  { intros j Hj. do 4 (destruct j as [|j]; [cbn; lra|]). cbn in Hj. lia. }
  pose proof (spb_balance_rows config6 mt (mk_hstate frame6 g)) as Hb.
  fold b in Hb. cbn [h_df] in Hb.
  destruct (hrows_hour_ge_2 _ _ _ _ _ Hb
              (fun w l n o e u => spb_water_le config6 w l n o e u Hc) Hin i)
    as (Ho & Hrow); [cbn; lia|].
  destruct (spb_hydrogen_rows b) as (_ & _ & Hh).
  assert (Hlb : length b = 4%nat) by (destruct Hb as (-> & _); reflexivity).
  unfold out, SwedenPowerBalance.simulate. fold b.
  rewrite (Hh i) by lia.
  repeat split; try assumption; reflexivity.
Qed.

(** C6, amended.  The three hours of the scenario, dispatched behind the
    initialisation row of the frame, get the hydro power 2, 2, 2 and the
    residuals 4, 0, 6, whatever the random stream. *)
Theorem C6_three_hours (mt : Z -> nat -> Q) (g : rng) :
  let out := SwedenPowerBalance.simulate config6 mt (mk_hstate frame6 g) in
  (Waout (out !!! 1%nat) == 2 /\ Waout (out !!! 2%nat) == 2 /\ Waout (out !!! 3%nat) == 2) /\
  (Residual (out !!! 1%nat) == 4 /\ Residual (out !!! 2%nat) == 0 /\
   Residual (out !!! 3%nat) == 6).
Proof.
  intros out.
  assert (H : forall i load, (1 <= i < 4)%nat ->
            Wind (frame6 !!! i) = 5 -> Nuclear (frame6 !!! i) = 5 ->
            Tout (frame6 !!! i) = load ->
            load == 8 \/ load == 12 \/ load == 6 ->
            Waout (out !!! i) == 2 /\ Residual (out !!! i) == 5 + 2 + 5 - load).
  { intros i load Hi Hw Hn Ht Hl.
    destruct (config6_rows mt g i Hi) as (HW & HR & Ho & Hrow).
    fold out in HW, HR. rewrite HW, HR, Hrow.
    cbn [Waout Pout Tout hwrite_row]. unfold hour. rewrite Hw, Hn, Ht.
    match goal with |- context [SwedenPowerBalance.dispatch config6 5 load 5 ?o ?e ?u] =>
      destruct (config6_hour load o e u Ho Hl) as (E1 & E2 & E3)
    end.
    split; [exact E1|]. rewrite E1, E2, E3. lra. }
  destruct (H 1%nat 8 ltac:(lia) eq_refl eq_refl eq_refl ltac:(left; reflexivity))
    as (W1 & R1).
  destruct (H 2%nat 12 ltac:(lia) eq_refl eq_refl eq_refl
              ltac:(right; left; reflexivity)) as (W2 & R2).
  destruct (H 3%nat 6 ltac:(lia) eq_refl eq_refl eq_refl
              ltac:(right; right; reflexivity)) as (W3 & R3).
  repeat split; try assumption; lra.
Qed.

(** C6 as stated fails: the residuals of the hours with demand 8 and 6 are
    4 and 6, the minimum hydro power included, not 2 and 4; and when the
    three hours are the whole frame, the first is the initialisation row,
    with hydro power 0 and residual 0. *)
Lemma C6_three_hours_counterexample :
  ~ (Residual (SwedenPowerBalance.simulate config6 half_stream (mk_hstate frame6 (mk_rng 0 0)) !!! 1%nat) == 2 /\
     Residual (SwedenPowerBalance.simulate config6 half_stream (mk_hstate frame6 (mk_rng 0 0)) !!! 2%nat) == 0 /\
     Residual (SwedenPowerBalance.simulate config6 half_stream (mk_hstate frame6 (mk_rng 0 0)) !!! 3%nat) == 4) /\
  ~ (Residual (SwedenPowerBalance.simulate config6 half_stream (mk_hstate hours3 (mk_rng 0 0)) !!! 0%nat) == 2 /\
     Residual (SwedenPowerBalance.simulate config6 half_stream (mk_hstate hours3 (mk_rng 0 0)) !!! 1%nat) == 0 /\
     Residual (SwedenPowerBalance.simulate config6 half_stream (mk_hstate hours3 (mk_rng 0 0)) !!! 2%nat) == 4).
Proof. vm_compute. split; intros [H _]; discriminate H. Qed.

(** ** What one step of the hydrogen variants writes *)

Lemma for_range_split {S : Type} (body : nat -> S -> S) (lo mid hi : nat) (s : S) :
  (lo <= mid <= hi)%nat ->
  for_range lo hi body s = for_range mid hi body (for_range lo mid body s).
Proof.
  intros H. unfold for_range.
  replace (hi - lo)%nat with ((mid - lo) + (hi - mid))%nat by lia.
  rewrite seq_app, foldl_app.
  now replace (lo + (mid - lo))%nat with mid by lia.
Qed.

Lemma nuc_body_other c i s j :
  j <> i ->
  SvK_EF_nuclear.df (SvK_EF_nuclear.balance_body c i s) !!! j = SvK_EF_nuclear.df s !!! j.
Proof.
  intros H. unfold SvK_EF_nuclear.balance_body. cbn [SvK_EF_nuclear.df].
  now apply list_lookup_total_insert_ne.
Qed.

Lemma dst_body_other c i s j :
  j <> i ->
  SvK_EF_wind.df (SvK_EF_wind.balance_body c i s) !!! j = SvK_EF_wind.df s !!! j.
Proof.
  intros H. unfold SvK_EF_wind.balance_body. cbn [SvK_EF_wind.df].
  now apply list_lookup_total_insert_ne.
Qed.

Lemma nuc_body_length c i s :
  length (SvK_EF_nuclear.df (SvK_EF_nuclear.balance_body c i s))
  = length (SvK_EF_nuclear.df s).
Proof. apply length_insert. Qed.

Lemma dst_body_length c i s :
  length (SvK_EF_wind.df (SvK_EF_wind.balance_body c i s)) = length (SvK_EF_wind.df s).
Proof. apply length_insert. Qed.

Lemma nuc_body_row c i s :
  (i < length (SvK_EF_nuclear.df s))%nat ->
  SvK_EF_nuclear.df (SvK_EF_nuclear.balance_body c i s) !!! i
  = SvK_EF_nuclear.write_row c (SvK_EF_nuclear.df s !!! i)
      (SvK_EF_nuclear.eStore (SvK_EF_nuclear.df s !!! (i - 1)%nat))
      (nuc_hour c (SvK_EF_nuclear.df s) i).
Proof.
  intros H. unfold SvK_EF_nuclear.balance_body. cbn [SvK_EF_nuclear.df].
  now apply list_lookup_total_insert_eq.
Qed.

Lemma dst_body_row c i s :
  (i < length (SvK_EF_wind.df s))%nat ->
  SvK_EF_wind.df (SvK_EF_wind.balance_body c i s) !!! i
  = SvK_EF_wind.write_row c (SvK_EF_wind.df s !!! i)
      (SvK_EF_wind.df s !!! (i - 1)%nat) (dst_hour c (SvK_EF_wind.df s) i).
Proof.
  intros H. unfold SvK_EF_wind.balance_body. cbn [SvK_EF_wind.df].
  now apply list_lookup_total_insert_eq.
Qed.

(** The steps [lo .. hi-1] leave every row below [lo] as it is. *)
Lemma nuc_later_steps c lo hi s j :
  (j < lo)%nat ->
  SvK_EF_nuclear.df (for_range lo hi (SvK_EF_nuclear.balance_body c) s) !!! j
  = SvK_EF_nuclear.df s !!! j.
Proof.
  intros Hj. destruct (decide (lo <= hi)%nat) as [Hle|Hgt].
  - apply (for_range_ind
             (fun _ t => SvK_EF_nuclear.df t !!! j = SvK_EF_nuclear.df s !!! j));
      [exact Hle | reflexivity |].
    intros i t Hi IH. rewrite nuc_body_other by lia. exact IH.
  - now rewrite for_range_empty by lia.
Qed.

Lemma dst_later_steps c lo hi s j :
  (j < lo)%nat ->
  SvK_EF_wind.df (for_range lo hi (SvK_EF_wind.balance_body c) s) !!! j
  = SvK_EF_wind.df s !!! j.
Proof.
  intros Hj. destruct (decide (lo <= hi)%nat) as [Hle|Hgt].
  - apply (for_range_ind
             (fun _ t => SvK_EF_wind.df t !!! j = SvK_EF_wind.df s !!! j));
      [exact Hle | reflexivity |].
    intros i t Hi IH. rewrite dst_body_other by lia. exact IH.
  - now rewrite for_range_empty by lia.
Qed.

(** C7, amended.  In both hydrogen variants, step [i] of the loop writes
    row [i] only; in that row it keeps [Wind] and [Heat] and replaces
    [Consumption] by [Consumption + eload - flex]; and the row a step has
    written is the row of the finished loop. *)
Theorem C7_step_frame
    (cn : SvK_EF_nuclear.config) (sn : SvK_EF_nuclear.state)
    (cw : SvK_EF_wind.config) (sw : SvK_EF_wind.state) (i : nat) :
  (1 <= i < length (SvK_EF_nuclear.df sn))%nat ->
  (1 <= i < length (SvK_EF_wind.df sw))%nat ->
  ((forall j, j <> i ->
      SvK_EF_nuclear.df (SvK_EF_nuclear.balance_body cn i sn) !!! j
      = SvK_EF_nuclear.df sn !!! j) /\
   SvK_EF_nuclear.Wind (SvK_EF_nuclear.df (SvK_EF_nuclear.balance_body cn i sn) !!! i)
   = SvK_EF_nuclear.Wind (SvK_EF_nuclear.df sn !!! i) /\
   SvK_EF_nuclear.Heat (SvK_EF_nuclear.df (SvK_EF_nuclear.balance_body cn i sn) !!! i)
   = SvK_EF_nuclear.Heat (SvK_EF_nuclear.df sn !!! i) /\
   SvK_EF_nuclear.Consumption (SvK_EF_nuclear.df (SvK_EF_nuclear.balance_body cn i sn) !!! i)
   = SvK_EF_nuclear.Consumption (SvK_EF_nuclear.df sn !!! i)
     + (SvK_EF_nuclear.d_eload (nuc_hour cn (SvK_EF_nuclear.df sn) i)
        - SvK_EF_nuclear.d_flex (nuc_hour cn (SvK_EF_nuclear.df sn) i)) /\
   SvK_EF_nuclear.df
     (for_range 1 (length (SvK_EF_nuclear.df sn)) (SvK_EF_nuclear.balance_body cn) sn) !!! i
   = SvK_EF_nuclear.df
       (for_range 1 (S i) (SvK_EF_nuclear.balance_body cn) sn) !!! i) /\
  ((forall j, j <> i ->
      SvK_EF_wind.df (SvK_EF_wind.balance_body cw i sw) !!! j = SvK_EF_wind.df sw !!! j) /\
   SvK_EF_wind.Wind (SvK_EF_wind.df (SvK_EF_wind.balance_body cw i sw) !!! i)
   = SvK_EF_wind.Wind (SvK_EF_wind.df sw !!! i) /\
   SvK_EF_wind.Heat (SvK_EF_wind.df (SvK_EF_wind.balance_body cw i sw) !!! i)
   = SvK_EF_wind.Heat (SvK_EF_wind.df sw !!! i) /\
   SvK_EF_wind.Consumption (SvK_EF_wind.df (SvK_EF_wind.balance_body cw i sw) !!! i)
   = SvK_EF_wind.Consumption (SvK_EF_wind.df sw !!! i)
     + (SvK_EF_wind.d_eload (dst_hour cw (SvK_EF_wind.df sw) i)
        - SvK_EF_wind.d_flex (dst_hour cw (SvK_EF_wind.df sw) i)) /\
   SvK_EF_wind.df
     (for_range 1 (length (SvK_EF_wind.df sw)) (SvK_EF_wind.balance_body cw) sw) !!! i
   = SvK_EF_wind.df (for_range 1 (S i) (SvK_EF_wind.balance_body cw) sw) !!! i).
Proof.
  intros Hn Hw. split.
  - split; [intros j Hj; now apply nuc_body_other|].
    rewrite nuc_body_row by lia. cbn [SvK_EF_nuclear.Wind SvK_EF_nuclear.Heat
      SvK_EF_nuclear.Consumption SvK_EF_nuclear.write_row].
    repeat split.
    rewrite (for_range_split _ 1 (S i) (length (SvK_EF_nuclear.df sn))) by lia.
    apply nuc_later_steps. lia.
  - split; [intros j Hj; now apply dst_body_other|].
    rewrite dst_body_row by lia. cbn [SvK_EF_wind.Wind SvK_EF_wind.Heat
      SvK_EF_wind.Consumption SvK_EF_wind.write_row].
    repeat split.
    rewrite (for_range_split _ 1 (S i) (length (SvK_EF_wind.df sw))) by lia.
    apply dst_later_steps. lia.
Qed.

Lemma C7_step_frame_witness :
  SvK_EF_nuclear.Consumption
    (SvK_EF_nuclear.df (SvK_EF_nuclear.balance_body SvK_EF_nuclear.script_config 1 nstate3) !!! 1%nat)
  = SvK_EF_nuclear.Consumption (SvK_EF_nuclear.df nstate3 !!! 1%nat)
    + (SvK_EF_nuclear.d_eload (nuc_hour SvK_EF_nuclear.script_config (SvK_EF_nuclear.df nstate3) 1)
       - SvK_EF_nuclear.d_flex (nuc_hour SvK_EF_nuclear.script_config (SvK_EF_nuclear.df nstate3) 1)).
Proof.
  assert (Hn : (1 <= 1 < length (SvK_EF_nuclear.df nstate3))%nat) by (cbn; lia).
  assert (Hw : (1 <= 1 < length (SvK_EF_wind.df wstate3))%nat) by (cbn; lia).
  exact (proj1 (proj2 (proj2 (proj2 (proj1
           (C7_step_frame SvK_EF_nuclear.script_config nstate3
              SvK_EF_wind.script_config wstate3 1 Hn Hw)))))).
Defined.

(** C7 as stated fails: the loop changes the exogenous [Consumption] of the
    row it handles.  Hour 1 sheds flexible load in both frames: 40 becomes
    38 in [SvK_EF_nuclear.py] and 30.65 in [SvK_EF_wind.py]. *)
Lemma C7_step_frame_counterexample :
  ~ SvK_EF_nuclear.Consumption
      (SvK_EF_nuclear.df (SvK_EF_nuclear.balance SvK_EF_nuclear.script_config nstate3) !!! 1%nat)
    == SvK_EF_nuclear.Consumption (SvK_EF_nuclear.df nstate3 !!! 1%nat) /\
  ~ SvK_EF_wind.Consumption
      (SvK_EF_wind.df (SvK_EF_wind.balance SvK_EF_wind.script_config wstate3) !!! 1%nat)
    == SvK_EF_wind.Consumption (SvK_EF_wind.df wstate3 !!! 1%nat).
Proof. vm_compute. split; discriminate. Qed.

(** ** Import against export in the hydrogen variants *)

Lemma nuc_hour_exclusive c w l n :
  let d := SvK_EF_nuclear.dispatch c w l n in
  (SvK_EF_nuclear.d_imp d = 0 \/ SvK_EF_nuclear.d_exp d = 0) /\
  (0 < SvK_EF_nuclear.d_imp d -> w + n + SvK_EF_nuclear.d_water d <= l) /\
  (0 < SvK_EF_nuclear.d_exp d -> l < w + n + SvK_EF_nuclear.d_water d) /\
  (0 <= SvK_EF_nuclear.flexmax c -> 0 < SvK_EF_nuclear.d_imp d ->
   w + n + SvK_EF_nuclear.d_water d < l).
Proof.
  cbv zeta. unfold SvK_EF_nuclear.dispatch.
  repeat qtest;
    cbn [SvK_EF_nuclear.d_imp SvK_EF_nuclear.d_exp SvK_EF_nuclear.d_water];
    (split; [auto|]); repeat split; intros; repeat qminmax; lra.
Qed.

Lemma dst_hour_exclusive c m l :
  let d := SvK_EF_wind.dispatch c m l in
  (SvK_EF_wind.d_imp d = 0 \/ SvK_EF_wind.d_exp d = 0) /\
  (0 < SvK_EF_wind.d_imp d -> m + SvK_EF_wind.d_water d < l) /\
  (0 < SvK_EF_wind.d_exp d -> l <= m + SvK_EF_wind.d_water d) /\
  (0 <= SvK_EF_wind.dStore_InCap c -> 0 <= SvK_EF_wind.elyscap c ->
   0 < SvK_EF_wind.d_exp d -> l < m + SvK_EF_wind.d_water d).
Proof.
  cbv zeta. unfold SvK_EF_wind.dispatch.
  repeat qtest;
    cbn [SvK_EF_wind.d_imp SvK_EF_wind.d_exp SvK_EF_wind.d_water];
    (split; [auto|]); repeat split; intros; repeat qminmax; lra.
Qed.

(** C10: in every hour [i >= 1] of both hydrogen variants one of import and
    export is written as 0, so at most one of them is positive; a positive
    import comes with a power balance after hydro ([Wind + Heat + Water -
    Consumption], on the consumption [balance()] was handed) that is no
    surplus, a positive export with one that is no deficit; and with
    capacities that are not negative the balance is then a strict deficit,
    respectively a strict surplus. *)
Theorem C10_import_export_exclusive
    (cn : SvK_EF_nuclear.config) (sn : SvK_EF_nuclear.state)
    (cw : SvK_EF_wind.config) (sw : SvK_EF_wind.state) (i : nat) :
  (1 <= i < length (SvK_EF_nuclear.df sn))%nat ->
  (1 <= i < length (SvK_EF_wind.df sw))%nat ->
  let rn := SvK_EF_nuclear.df (SvK_EF_nuclear.balance cn sn) !!! i in
  let bn := SvK_EF_nuclear.Wind (SvK_EF_nuclear.df sn !!! i)
            + SvK_EF_nuclear.Heat (SvK_EF_nuclear.df sn !!! i)
            + SvK_EF_nuclear.Water rn
            - SvK_EF_nuclear.Consumption (SvK_EF_nuclear.df sn !!! i) in
  let rw := SvK_EF_wind.df (SvK_EF_wind.balance cw sw) !!! i in
  let bw := SvK_EF_wind.Wind (SvK_EF_wind.df sw !!! i)
            + SvK_EF_wind.Heat (SvK_EF_wind.df sw !!! i)
            + SvK_EF_wind.Water rw
            - SvK_EF_wind.Consumption (SvK_EF_wind.df sw !!! i) in
  (~ (0 < SvK_EF_nuclear.Import rn /\ 0 < SvK_EF_nuclear.Export rn) /\
   (0 < SvK_EF_nuclear.Import rn -> bn <= 0) /\
   (0 < SvK_EF_nuclear.Export rn -> 0 < bn) /\
   (0 <= SvK_EF_nuclear.flexmax cn -> 0 < SvK_EF_nuclear.Import rn -> bn < 0)) /\
  (~ (0 < SvK_EF_wind.Import rw /\ 0 < SvK_EF_wind.Export rw) /\
   (0 < SvK_EF_wind.Import rw -> bw < 0) /\
   (0 < SvK_EF_wind.Export rw -> 0 <= bw) /\
   (0 <= SvK_EF_wind.dStore_InCap cw -> 0 <= SvK_EF_wind.elyscap cw ->
    0 < SvK_EF_wind.Export rw -> 0 < bw)).
Proof.
  intros Hn Hw rn bn rw bw.
  destruct (nuc_balance_rows cn sn) as (_ & _ & Rn).
  destruct (dst_balance_rows cw sw) as (_ & _ & Rw).
  split.
  - unfold bn, rn. rewrite (Rn i Hn).
    cbn [SvK_EF_nuclear.Import SvK_EF_nuclear.Export SvK_EF_nuclear.Water
         SvK_EF_nuclear.write_row].
    unfold nuc_hour.
    match goal with |- context [SvK_EF_nuclear.dispatch cn ?w ?l ?n] =>
      pose proof (nuc_hour_exclusive cn w l n) as (Hex & Hi & He & Hs);
      set (d := SvK_EF_nuclear.dispatch cn w l n) in *
    end.
    repeat split.
    + intros [H1 H2]. destruct Hex as [E|E]; rewrite E in *; lra.
    + intros H. specialize (Hi H). lra.
    + intros H. specialize (He H). lra.
    + intros Hf H. specialize (Hs Hf H). lra.
  - unfold bw, rw. rewrite (Rw i Hw).
    cbn [SvK_EF_wind.Import SvK_EF_wind.Export SvK_EF_wind.Water SvK_EF_wind.write_row].
    unfold dst_hour.
    match goal with |- context [SvK_EF_wind.dispatch cw ?m ?l] =>
      pose proof (dst_hour_exclusive cw m l) as (Hex & Hi & He & Hs);
      set (d := SvK_EF_wind.dispatch cw m l) in *
    end.
    repeat split.
    + intros [H1 H2]. destruct Hex as [E|E]; rewrite E in *; lra.
    + intros H. specialize (Hi H). lra.
    + intros H. specialize (He H). lra.
    + intros Hc1 Hc2 H. specialize (Hs Hc1 Hc2 H). lra.
Qed.

Lemma C10_import_export_exclusive_witness :
  ~ (0 < SvK_EF_nuclear.Import
           (SvK_EF_nuclear.df (SvK_EF_nuclear.balance SvK_EF_nuclear.script_config nstate3) !!! 2%nat) /\
     0 < SvK_EF_nuclear.Export
           (SvK_EF_nuclear.df (SvK_EF_nuclear.balance SvK_EF_nuclear.script_config nstate3) !!! 2%nat)) /\
  ~ (0 < SvK_EF_wind.Import
           (SvK_EF_wind.df (SvK_EF_wind.balance SvK_EF_wind.script_config wstate3) !!! 2%nat) /\
     0 < SvK_EF_wind.Export
           (SvK_EF_wind.df (SvK_EF_wind.balance SvK_EF_wind.script_config wstate3) !!! 2%nat)).
Proof.
  assert (Hn : (1 <= 2 < length (SvK_EF_nuclear.df nstate3))%nat) by (cbn; lia).
  assert (Hw : (1 <= 2 < length (SvK_EF_wind.df wstate3))%nat) by (cbn; lia).
  pose proof (C10_import_export_exclusive SvK_EF_nuclear.script_config nstate3
                SvK_EF_wind.script_config wstate3 2 Hn Hw) as H.
  cbv zeta in H. destruct H as ((H1 & _) & (H2 & _)).
  split; assumption.
Defined.

(** ** The deficit store *)

Lemma dst_hour_eff e c df i : dst_hour (set_rtp_eff e c) df i = dst_hour c df i.
Proof. reflexivity. Qed.

Lemma dst_store_step c s i :
  (1 <= i < length (SvK_EF_wind.df s))%nat ->
  let out := SvK_EF_wind.df (SvK_EF_wind.balance c s) in
  SvK_EF_wind.dStore (out !!! i)
  = SvK_EF_wind.dStore (out !!! (i - 1)%nat)
    + SvK_EF_wind.store_flow c (SvK_EF_wind.d_def_store (dst_hour c (SvK_EF_wind.df s) i)) /\
  SvK_EF_wind.dPower (out !!! i)
  = SvK_EF_wind.store_flow c (SvK_EF_wind.d_def_store (dst_hour c (SvK_EF_wind.df s) i)).
Proof.
  intros Hi out. destruct (dst_balance_rows c s) as (_ & _ & Hr).
  fold out in Hr. rewrite (Hr i Hi). split; reflexivity.
Qed.

(** Without a discharge up to hour [i], the level does not depend on the
    efficiency. *)
Lemma dst_store_no_discharge c e s i :
  (i < length (SvK_EF_wind.df s))%nat ->
  (forall j, (1 <= j <= i)%nat ->
     0 <= SvK_EF_wind.d_def_store (dst_hour c (SvK_EF_wind.df s) j)) ->
  SvK_EF_wind.dStore (SvK_EF_wind.df (SvK_EF_wind.balance (set_rtp_eff e c) s) !!! i)
  = SvK_EF_wind.dStore (SvK_EF_wind.df (SvK_EF_wind.balance c s) !!! i).
Proof.
  induction i as [|i IH]; intros Hi Hno.
  - destruct (dst_balance_rows c s) as (_ & H0 & _).
    destruct (dst_balance_rows (set_rtp_eff e c) s) as (_ & H0' & _).
    now rewrite H0, H0' by lia.
  - destruct (dst_store_step c s (S i) ltac:(lia)) as (E & _).
    destruct (dst_store_step (set_rtp_eff e c) s (S i) ltac:(lia)) as (E' & _).
    rewrite E, E', dst_hour_eff. replace (S i - 1)%nat with i by lia.
    rewrite IH by (try lia; intros j Hj; apply Hno; lia).
    f_equal. unfold SvK_EF_wind.store_flow.
    specialize (Hno (S i) ltac:(lia)).
    repeat qtest; try reflexivity; lra.
Qed.

Lemma Qdiv_neq (d e1 e2 : Q) :
  d < 0 -> ~ e1 == 0 -> ~ e2 == 0 -> ~ e1 == e2 -> ~ d / e1 == d / e2.
Proof.
  intros Hd H1 H2 Hne Heq. apply Hne.
  assert (Hm : d * e2 == d * e1).
  { assert (A1 : d * e2 == (d / e1) * (e1 * e2)) by (field; exact H1).
    assert (A2 : d * e1 == (d / e2) * (e1 * e2)) by (field; exact H2).
    now rewrite A1, A2, Heq. }
  assert (Hd' : ~ d == 0) by lra.
  symmetry. apply (Qmult_inj_l e2 e1 d Hd'). exact Hm.
Qed.

(** C3: in the deficit-store variant, with [d] the flow [def_store] that
    the dispatch of hour [i >= 1] decides (the same under every efficiency),
    the level [dStore] moves by [d / rtp_eff] when [d] is negative and by [d]
    itself otherwise, and [dPower] is that amount.  So under another
    efficiency [e] the level at hour [i] is the same when no hour up to [i]
    discharges, the step of an hour that does not discharge is the same, and
    the step of an hour that discharges differs. *)
Theorem C3_deficit_store_efficiency (c : SvK_EF_wind.config) (s : SvK_EF_wind.state) (i : nat) :
  ~ SvK_EF_wind.rtp_eff c == 0 ->
  (1 <= i < length (SvK_EF_wind.df s))%nat ->
  let out := SvK_EF_wind.df (SvK_EF_wind.balance c s) in
  let d := SvK_EF_wind.d_def_store (dst_hour c (SvK_EF_wind.df s) i) in
  (d < 0 ->
   SvK_EF_wind.dStore (out !!! i)
   = SvK_EF_wind.dStore (out !!! (i - 1)%nat) + d / SvK_EF_wind.rtp_eff c /\
   SvK_EF_wind.dPower (out !!! i) = d / SvK_EF_wind.rtp_eff c) /\
  (0 <= d ->
   SvK_EF_wind.dStore (out !!! i) = SvK_EF_wind.dStore (out !!! (i - 1)%nat) + d /\
   SvK_EF_wind.dPower (out !!! i) = d) /\
  (forall e, ~ e == 0 ->
     let out' := SvK_EF_wind.df (SvK_EF_wind.balance (set_rtp_eff e c) s) in
     SvK_EF_wind.d_def_store (dst_hour (set_rtp_eff e c) (SvK_EF_wind.df s) i) = d /\
     ((forall j, (1 <= j <= i)%nat ->
         0 <= SvK_EF_wind.d_def_store (dst_hour c (SvK_EF_wind.df s) j)) ->
      SvK_EF_wind.dStore (out' !!! i) = SvK_EF_wind.dStore (out !!! i)) /\
     (0 <= d ->
      SvK_EF_wind.dStore (out' !!! i) - SvK_EF_wind.dStore (out' !!! (i - 1)%nat)
      == SvK_EF_wind.dStore (out !!! i) - SvK_EF_wind.dStore (out !!! (i - 1)%nat)) /\
     (d < 0 -> ~ e == SvK_EF_wind.rtp_eff c ->
      ~ SvK_EF_wind.dStore (out' !!! i) - SvK_EF_wind.dStore (out' !!! (i - 1)%nat)
        == SvK_EF_wind.dStore (out !!! i) - SvK_EF_wind.dStore (out !!! (i - 1)%nat))).
Proof.
  intros Heff Hi out d.
  destruct (dst_store_step c s i Hi) as (E & P). fold out d in E, P.
  assert (Fneg : d < 0 -> SvK_EF_wind.store_flow c d = d / SvK_EF_wind.rtp_eff c).
  { intros H. unfold SvK_EF_wind.store_flow. qtest; [reflexivity | lra]. }
  assert (Fpos : forall c', 0 <= d -> SvK_EF_wind.store_flow c' d = d).
  { intros c' H. unfold SvK_EF_wind.store_flow. qtest; [lra | reflexivity]. }
  split; [|split].
  - intros H. now rewrite E, P, (Fneg H).
  - intros H. now rewrite E, P, (Fpos c H).
  - intros e He out'.
    destruct (dst_store_step (set_rtp_eff e c) s i Hi) as (E' & _).
    rewrite dst_hour_eff in E'. fold out' d in E'.
    split; [reflexivity|]. split; [|split].
    + intros Hno. apply dst_store_no_discharge; [lia | exact Hno].
    + intros H. rewrite E, E', !(Fpos _ H). lra.
    + intros H Hne Heq. rewrite E, E', (Fneg H) in Heq.
      assert (F' : SvK_EF_wind.store_flow (set_rtp_eff e c) d = d / e).
      { unfold SvK_EF_wind.store_flow. qtest; [reflexivity | lra]. }
      rewrite F' in Heq.
      apply (Qdiv_neq d e (SvK_EF_wind.rtp_eff c) H He Heff Hne). lra.
Qed.

Lemma C3_deficit_store_efficiency_witness :
  SvK_EF_wind.dStore (SvK_EF_wind.df (SvK_EF_wind.balance SvK_EF_wind.script_config wstate3) !!! 1%nat)
  = SvK_EF_wind.dStore (SvK_EF_wind.df (SvK_EF_wind.balance SvK_EF_wind.script_config wstate3) !!! 0%nat)
    + SvK_EF_wind.d_def_store (dst_hour SvK_EF_wind.script_config (SvK_EF_wind.df wstate3) 1)
      / SvK_EF_wind.rtp_eff SvK_EF_wind.script_config.
Proof.
  assert (He : ~ SvK_EF_wind.rtp_eff SvK_EF_wind.script_config == 0)
    by (vm_compute; discriminate).
  assert (Hi : (1 <= 1 < length (SvK_EF_wind.df wstate3))%nat) by (cbn; lia).
  assert (Hd : SvK_EF_wind.d_def_store
                 (dst_hour SvK_EF_wind.script_config (SvK_EF_wind.df wstate3) 1) < 0)
    by (vm_compute; reflexivity).
  exact (proj1 (proj1 (C3_deficit_store_efficiency SvK_EF_wind.script_config wstate3 1 He Hi) Hd)).
Defined.

(** * Further results on the reservoir variants *)




Lemma h2_rows_hkey gain b out i :
  h2_rows gain b out -> (i < length b)%nat ->
  exists x y, out !!! i = hkey (b !!! i) x y.
Proof.
  intros (_ & H0 & Hr) Hi. destruct (decide (i = 0%nat)) as [->|Hne].
  - rewrite H0 by lia. now exists 0, 0.
  - rewrite Hr by lia. unfold h2_row, hkey. eauto.
Qed.










Lemma hbalance_gen disp c mt st :
  (forall c w l n o e u,
     d_ema (disp c w l n o e u) = alfa * (u * imp_level * 2) + (1 - alfa) * e) ->
  let d0 := <[0%nat := hinit_row c (h_df st !!! 0%nat)]> (h_df st) in
  l_gen (for_range 1 (length d0) (hbody disp c mt)
           (mk_hloop d0 (random_seed 5 (h_gen st)) imp_level))
  = mk_rng 5 (length (h_df st) - 1).
Proof.
  intros Hema d0.
  assert (Hd0 : length d0 = length (h_df st)) by apply length_insert.
  destruct (decide (length d0 <= 1)%nat) as [Hs|Hl].
  - rewrite for_range_empty by lia. cbn [l_gen]. unfold random_seed. f_equal. lia.
  - pose proof (for_range_ind (hloop_inv disp c mt d0) (hbody disp c mt) 1 (length d0)
                  (mk_hloop d0 (random_seed 5 (h_gen st)) imp_level)) as H.
    destruct H as (_ & Hg & _).
    + lia.
    + unfold hloop_inv. cbn. repeat split; intros; lia || reflexivity.
    + intros i t Hi. now apply hloop_inv_step.
    + rewrite Hg. now rewrite Hd0.
Qed.

(** X5: [balance()] of the reservoir variants acts on the global generator:
    whatever state it finds, it leaves the generator seeded with 5 and
    advanced by one draw per hour after row 0, that is by [len(df) - 1]
    draws (none for an empty or one-row frame). *)
Theorem X5_generator_after_balance (c : hconfig) (mt : Z -> nat -> Q) (st : hstate) :
  h_gen (SwedenPowerBalance.balance c mt st) = mk_rng 5 (length (h_df st) - 1) /\
  h_gen (SE300wind.balance c mt st) = mk_rng 5 (length (h_df st) - 1).
Proof.
  split.
  - apply (hbalance_gen SwedenPowerBalance.dispatch), spb_dispatch_ema.
  - apply (hbalance_gen SE300wind.dispatch), se3_dispatch_ema.
Qed.

Lemma hbody_ema_bounds disp c mt n s :
  (forall c w l n o e u,
     d_ema (disp c w l n o e u) = alfa * (u * imp_level * 2) + (1 - alfa) * e) ->
  (forall k, 0 <= mt 5%Z k /\ mt 5%Z k < 1) ->
  rng_seed (l_gen s) = 5%Z -> 0 < l_ema s /\ l_ema s < 2.2 ->
  0 < l_ema (for_range 1 n (hbody disp c mt) s) /\
  l_ema (for_range 1 n (hbody disp c mt) s) < 2.2.
Proof.
  intros Hema Hmt Hseed Hs.
  destruct (decide (1 <= n)%nat) as [Hn|Hn]; [|now rewrite for_range_empty by lia].
  apply (for_range_ind
           (fun _ t => rng_seed (l_gen t) = 5%Z /\ 0 < l_ema t /\ l_ema t < 2.2)
           (hbody disp c mt) 1 n s Hn); [now split|].
  intros i t Hi (Hg & Hlo & Hhi). unfold hbody. cbn [l_gen l_ema rng_seed].
  split; [exact Hg|]. rewrite Hema, Hg.
  destruct (Hmt (rng_pos (l_gen t))) as (U0 & U1).
  unfold alfa, imp_level. split; lra.
Qed.

(** X6: the smoothed level of the water-to-import exchange stays strictly
    between 0 and 2.2 (twice [imp_level]).  When the generator returns
    floats in [0, 1), [ema_old] starts at 1.1 and after any number of
    iterations of the loop of [balance()] it is still above 0 and below
    2.2, in both reservoir variants. *)
Theorem X6_ema_stays_in_range (c : hconfig) (mt : Z -> nat -> Q) (df : list hrow) (g : rng) (n : nat) :
  (forall k, 0 <= mt 5%Z k /\ mt 5%Z k < 1) ->
  (0 < l_ema (for_range 1 n (SwedenPowerBalance.balance_body c mt)
                (mk_hloop df (random_seed 5 g) imp_level)) /\
   l_ema (for_range 1 n (SwedenPowerBalance.balance_body c mt)
            (mk_hloop df (random_seed 5 g) imp_level)) < 2.2) /\
  (0 < l_ema (for_range 1 n (SE300wind.balance_body c mt)
                (mk_hloop df (random_seed 5 g) imp_level)) /\
   l_ema (for_range 1 n (SE300wind.balance_body c mt)
            (mk_hloop df (random_seed 5 g) imp_level)) < 2.2).
Proof.
  intros Hmt. split.
  - apply (hbody_ema_bounds SwedenPowerBalance.dispatch c mt n _ spb_dispatch_ema Hmt);
      [reflexivity | cbn; unfold imp_level; split; lra].
  - apply (hbody_ema_bounds SE300wind.dispatch c mt n _ se3_dispatch_ema Hmt);
      [reflexivity | cbn; unfold imp_level; split; lra].
Qed.

Lemma half_stream_unit k : 0 <= half_stream 5%Z k /\ half_stream 5%Z k < 1.
Proof. unfold half_stream. split; lra. Qed.

Lemma X6_ema_stays_in_range_witness :
  0 < l_ema (for_range 1 4 (SwedenPowerBalance.balance_body SwedenPowerBalance.config half_stream)
               (mk_hloop hframe4 (random_seed 5 (mk_rng 0 0)) imp_level)) /\
  l_ema (for_range 1 4 (SwedenPowerBalance.balance_body SwedenPowerBalance.config half_stream)
           (mk_hloop hframe4 (random_seed 5 (mk_rng 0 0)) imp_level)) < 2.2.
Proof.
  exact (proj1 (X6_ema_stays_in_range SwedenPowerBalance.config half_stream hframe4
                  (mk_rng 0 0) 4 half_stream_unit)).
Defined.

(** ** The running totals of the hydrogen loop *)





(** * Further results on the hydrogen variants *)

Lemma nuc_hour_order c w l n :
  nuc_config_ok c ->
  let d := SvK_EF_nuclear.dispatch c w l n in
  (2 <= SvK_EF_nuclear.d_water d /\ SvK_EF_nuclear.d_water d <= SvK_EF_nuclear.wlim c) /\
  (0 <= SvK_EF_nuclear.d_eload d /\ SvK_EF_nuclear.d_eload d <= SvK_EF_nuclear.elyscap c) /\
  (0 <= SvK_EF_nuclear.d_flex d /\ SvK_EF_nuclear.d_flex d <= SvK_EF_nuclear.flexmax c) /\
  ((SvK_EF_nuclear.d_eload d = 0 /\ SvK_EF_nuclear.d_exp d = 0) \/
   (SvK_EF_nuclear.d_flex d = 0 /\ SvK_EF_nuclear.d_imp d = 0)) /\
  (0 < SvK_EF_nuclear.d_imp d -> SvK_EF_nuclear.d_flex d == SvK_EF_nuclear.flexmax c) /\
  (0 < SvK_EF_nuclear.d_exp d -> SvK_EF_nuclear.d_eload d == SvK_EF_nuclear.elyscap c) /\
  (nuc_residual w l n d < 0 ->
   SvK_EF_nuclear.d_water d == SvK_EF_nuclear.wlim c /\
   SvK_EF_nuclear.d_flex d == SvK_EF_nuclear.flexmax c /\
   SvK_EF_nuclear.d_imp d == SvK_EF_nuclear.impl c /\
   SvK_EF_nuclear.d_eload d == 0 /\ SvK_EF_nuclear.d_exp d == 0) /\
  (0 < nuc_residual w l n d ->
   SvK_EF_nuclear.d_water d == 2 /\
   SvK_EF_nuclear.d_eload d == SvK_EF_nuclear.elyscap c /\
   SvK_EF_nuclear.d_exp d == SvK_EF_nuclear.expl c /\
   SvK_EF_nuclear.d_flex d == 0 /\ SvK_EF_nuclear.d_imp d == 0).
Proof.
  intros (Hw & Hi & He & Hy & Hf). cbv zeta. unfold nuc_residual.
  unfold SvK_EF_nuclear.dispatch.
  repeat qtest;
    cbn [SvK_EF_nuclear.d_imp SvK_EF_nuclear.d_exp SvK_EF_nuclear.d_water
         SvK_EF_nuclear.d_eload SvK_EF_nuclear.d_flex];
    (split; [|split; [|split; [|split; [auto|]]]]);
    repeat split; intros; repeat qminmax; lra.
Qed.

Lemma dst_hour_order c m l :
  dst_config_ok c ->
  let d := SvK_EF_wind.dispatch c m l in
  (SvK_EF_wind.wlim_low c <= SvK_EF_wind.d_water d /\
   SvK_EF_wind.d_water d <= SvK_EF_wind.wlim_high c) /\
  (0 <= SvK_EF_wind.d_eload d /\ SvK_EF_wind.d_eload d <= SvK_EF_wind.elyscap c) /\
  (0 <= SvK_EF_wind.d_flex d /\ SvK_EF_wind.d_flex d <= SvK_EF_wind.flexmax c) /\
  (- SvK_EF_wind.dStore_OutCap c <= SvK_EF_wind.d_def_store d /\
   SvK_EF_wind.d_def_store d <= SvK_EF_wind.dStore_InCap c) /\
  ((SvK_EF_wind.d_eload d = 0 /\ SvK_EF_wind.d_exp d = 0) \/
   (SvK_EF_wind.d_flex d = 0 /\ SvK_EF_wind.d_imp d = 0)) /\
  (0 < SvK_EF_wind.d_eload d ->
   SvK_EF_wind.d_def_store d == SvK_EF_wind.dStore_InCap c) /\
  (0 < SvK_EF_wind.d_exp d ->
   SvK_EF_wind.d_eload d == SvK_EF_wind.elyscap c /\
   SvK_EF_wind.d_def_store d == SvK_EF_wind.dStore_InCap c) /\
  (0 < SvK_EF_wind.d_imp d -> SvK_EF_wind.d_flex d == SvK_EF_wind.flexmax c) /\
  (SvK_EF_wind.d_def_store d < 0 ->
   SvK_EF_wind.d_flex d == SvK_EF_wind.flexmax c /\
   SvK_EF_wind.d_imp d == SvK_EF_wind.impl c /\
   SvK_EF_wind.d_eload d == 0) /\
  (dst_residual m l d < 0 ->
   SvK_EF_wind.d_water d == SvK_EF_wind.wlim_high c /\
   SvK_EF_wind.d_flex d == SvK_EF_wind.flexmax c /\
   SvK_EF_wind.d_imp d == SvK_EF_wind.impl c /\
   SvK_EF_wind.d_def_store d == - SvK_EF_wind.dStore_OutCap c /\
   SvK_EF_wind.d_eload d == 0 /\ SvK_EF_wind.d_exp d == 0) /\
  (0 < dst_residual m l d ->
   SvK_EF_wind.d_water d == SvK_EF_wind.wlim_low c /\
   SvK_EF_wind.d_def_store d == SvK_EF_wind.dStore_InCap c /\
   SvK_EF_wind.d_eload d == SvK_EF_wind.elyscap c /\
   SvK_EF_wind.d_exp d == SvK_EF_wind.expl c /\
   SvK_EF_wind.d_flex d == 0 /\ SvK_EF_wind.d_imp d == 0).
Proof.
  intros (Hl & Hlh & Hi & He & Hic & Hoc & Hy & Hf). cbv zeta. unfold dst_residual.
  unfold SvK_EF_wind.dispatch.
  repeat qtest;
    cbn [SvK_EF_wind.d_imp SvK_EF_wind.d_exp SvK_EF_wind.d_water
         SvK_EF_wind.d_eload SvK_EF_wind.d_flex SvK_EF_wind.d_def_store];
    (split; [|split; [|split; [|split; [|split; [auto|]]]]]);
    repeat split; intros; repeat qminmax; lra.
Qed.

Lemma nuc_sim_row c s i :
  (1 <= i < length (SvK_EF_nuclear.df s))%nat ->
  exists pe,
    nuc_simulate c s !!! i
    = nuc_set_residual
        (SvK_EF_nuclear.write_row c (SvK_EF_nuclear.df s !!! i) pe
           (SvK_EF_nuclear.dispatch c (SvK_EF_nuclear.Wind (SvK_EF_nuclear.df s !!! i))
              (SvK_EF_nuclear.Consumption (SvK_EF_nuclear.df s !!! i))
              (SvK_EF_nuclear.Heat (SvK_EF_nuclear.df s !!! i)))).
Proof.
  intros Hi. destruct (nuc_balance_rows c s) as (Hl & _ & Hr).
  unfold nuc_simulate.
  rewrite (list_lookup_total_fmap nuc_set_residual
             (SvK_EF_nuclear.df (SvK_EF_nuclear.balance c s)) i) by lia.
  rewrite (Hr i Hi). unfold nuc_hour. eauto.
Qed.

Lemma dst_sim_row c s i :
  (1 <= i < length (SvK_EF_wind.df s))%nat ->
  exists p,
    dst_simulate c s !!! i
    = dst_set_residual
        (SvK_EF_wind.write_row c (SvK_EF_wind.df s !!! i) p
           (SvK_EF_wind.dispatch c
              (SvK_EF_wind.Wind (SvK_EF_wind.df s !!! i)
               + SvK_EF_wind.Heat (SvK_EF_wind.df s !!! i))
              (SvK_EF_wind.Consumption (SvK_EF_wind.df s !!! i)))).
Proof.
  intros Hi. destruct (dst_balance_rows c s) as (Hl & _ & Hr).
  unfold dst_simulate.
  rewrite (list_lookup_total_fmap dst_set_residual
             (SvK_EF_wind.df (SvK_EF_wind.balance c s)) i) by lia.
  rewrite (Hr i Hi). unfold dst_hour. eauto.
Qed.

(** X9: hydro power and flexible load of [SvK_EF_nuclear.py] stay in their
    ranges.  With capacities that are not negative and [wlim >= 2], for
    every hour [i >= 1] the hydro power written is between 2 and [wlim], and
    the consumption left in the frame is the one handed in, lowered by at
    most [flexmax] or raised by at most [elyscap]. *)
Theorem X9_nuclear_ranges (c : SvK_EF_nuclear.config) (s : SvK_EF_nuclear.state) (i : nat) :
  nuc_config_ok c ->
  (1 <= i < length (SvK_EF_nuclear.df s))%nat ->
  let r := nuc_simulate c s !!! i in
  let cin := SvK_EF_nuclear.Consumption (SvK_EF_nuclear.df s !!! i) in
  (2 <= SvK_EF_nuclear.Water r /\ SvK_EF_nuclear.Water r <= SvK_EF_nuclear.wlim c) /\
  (cin - SvK_EF_nuclear.flexmax c <= SvK_EF_nuclear.Consumption r /\
   SvK_EF_nuclear.Consumption r <= cin + SvK_EF_nuclear.elyscap c).
Proof.
  intros Hc Hi r cin. destruct (nuc_sim_row c s i Hi) as (pe & Hrow).
  unfold r. rewrite Hrow.
  cbn [nuc_set_residual SvK_EF_nuclear.Water SvK_EF_nuclear.Consumption
       SvK_EF_nuclear.write_row].
  match goal with |- context [SvK_EF_nuclear.dispatch c ?w ?l ?n] =>
    pose proof (nuc_hour_order c w l n Hc) as (Hw & He & Hf & Hx & _);
    set (d := SvK_EF_nuclear.dispatch c w l n) in *
  end.
  fold cin. split; [exact Hw|].
  destruct Hc as (_ & _ & _ & Hy & Hfm).
  destruct Hx as [[E _]|[E _]]; rewrite E in *; split; lra.
Qed.

Lemma nuc_script_config_ok : nuc_config_ok SvK_EF_nuclear.script_config.
Proof. unfold nuc_config_ok. cbn. repeat split; lra. Qed.

Lemma dst_script_config_ok : dst_config_ok SvK_EF_wind.script_config.
Proof. unfold dst_config_ok. cbn. repeat split; lra. Qed.

Lemma X9_nuclear_ranges_witness :
  2 <= SvK_EF_nuclear.Water (nuc_simulate SvK_EF_nuclear.script_config nstate3 !!! 1%nat) /\
  SvK_EF_nuclear.Water (nuc_simulate SvK_EF_nuclear.script_config nstate3 !!! 1%nat)
  <= SvK_EF_nuclear.wlim SvK_EF_nuclear.script_config.
Proof.
  assert (Hi : (1 <= 1 < length (SvK_EF_nuclear.df nstate3))%nat) by (cbn; lia).
  exact (proj1 (X9_nuclear_ranges SvK_EF_nuclear.script_config nstate3 1
                  nuc_script_config_ok Hi)).
Defined.




Lemma dst_store_flow_eff c d :
  ~ SvK_EF_wind.rtp_eff c == 0 ->
  SvK_EF_wind.store_flow c d * SvK_EF_wind.rtp_eff c == d \/
  (0 <= d /\ SvK_EF_wind.store_flow c d = d).
Proof.
  intros He. unfold SvK_EF_wind.store_flow. qtest.
  - left. field. exact He.
  - right. split; [lra | reflexivity].
Qed.

Lemma dst_store_flow_sign c d :
  0 < SvK_EF_wind.rtp_eff c ->
  (SvK_EF_wind.store_flow c d < 0 -> d < 0) /\
  (d <= 0 -> SvK_EF_wind.store_flow c d * SvK_EF_wind.rtp_eff c == d).
Proof.
  intros He. unfold SvK_EF_wind.store_flow. qtest; split; intros H.
  - exact E.
  - field. lra.
  - lra.
  - assert (d == 0) as -> by lra. lra.
Qed.

(** X11: hydro power, flexible load and the flow of the deficit store of
    [SvK_EF_wind.py] stay in their ranges.  With capacities that are not
    negative, [wlim_low <= wlim_high] and a positive efficiency, for every
    hour [i >= 1]: the hydro power is between [wlim_low] and [wlim_high];
    the consumption left in the frame is the one handed in, lowered by at
    most [flexmax] or raised by at most [elyscap]; the store is charged with
    at most [dStore_InCap]; and a discharge [dPower < 0] delivers, after the
    efficiency, at most [dStore_OutCap]. *)
Theorem X11_deficit_store_ranges (c : SvK_EF_wind.config) (s : SvK_EF_wind.state) (i : nat) :
  dst_config_ok c -> 0 < SvK_EF_wind.rtp_eff c ->
  (1 <= i < length (SvK_EF_wind.df s))%nat ->
  let r := dst_simulate c s !!! i in
  let cin := SvK_EF_wind.Consumption (SvK_EF_wind.df s !!! i) in
  (SvK_EF_wind.wlim_low c <= SvK_EF_wind.Water r /\
   SvK_EF_wind.Water r <= SvK_EF_wind.wlim_high c) /\
  (cin - SvK_EF_wind.flexmax c <= SvK_EF_wind.Consumption r /\
   SvK_EF_wind.Consumption r <= cin + SvK_EF_wind.elyscap c) /\
  SvK_EF_wind.dPower r <= SvK_EF_wind.dStore_InCap c /\
  (SvK_EF_wind.dPower r < 0 ->
   - SvK_EF_wind.dStore_OutCap c <= SvK_EF_wind.dPower r * SvK_EF_wind.rtp_eff c).
Proof.
  intros Hc He Hi r cin. destruct (dst_sim_row c s i Hi) as (p & Hrow).
  unfold r. rewrite Hrow.
  cbn [dst_set_residual SvK_EF_wind.Water SvK_EF_wind.Consumption
       SvK_EF_wind.dPower SvK_EF_wind.write_row].
  match goal with |- context [SvK_EF_wind.dispatch c ?m ?l] =>
    pose proof (dst_hour_order c m l Hc) as (Hw & Hel & Hf & Hd & Hx & _);
    set (d := SvK_EF_wind.dispatch c m l) in *
  end.
  fold cin. destruct Hc as (_ & _ & _ & _ & Hic & Hoc & Hy & Hfm).
  split; [exact Hw|]. split; [|split].
  - destruct Hx as [[E _]|[E _]]; rewrite E in *; split; lra.
  - unfold SvK_EF_wind.store_flow. qtest; [|lra].
    assert (SvK_EF_wind.d_def_store d / SvK_EF_wind.rtp_eff c < 0).
    { apply Qlt_shift_div_r; [exact He | lra]. }
    lra.
  - intros Hneg.
    destruct (dst_store_flow_sign c (SvK_EF_wind.d_def_store d) He) as (S1 & S2).
    specialize (S1 Hneg). rewrite S2 by lra. lra.
Qed.

Lemma X11_deficit_store_ranges_witness :
  SvK_EF_wind.dPower (dst_simulate SvK_EF_wind.script_config wstate3 !!! 1%nat) < 0 /\
  - SvK_EF_wind.dStore_OutCap SvK_EF_wind.script_config
  <= SvK_EF_wind.dPower (dst_simulate SvK_EF_wind.script_config wstate3 !!! 1%nat)
     * SvK_EF_wind.rtp_eff SvK_EF_wind.script_config.
Proof.
  assert (He : 0 < SvK_EF_wind.rtp_eff SvK_EF_wind.script_config)
    by (vm_compute; reflexivity).
  assert (Hi : (1 <= 1 < length (SvK_EF_wind.df wstate3))%nat) by (cbn; lia).
  assert (Hd : SvK_EF_wind.dPower (dst_simulate SvK_EF_wind.script_config wstate3 !!! 1%nat) < 0)
    by (vm_compute; reflexivity).
  split; [exact Hd|].
  exact (proj2 (proj2 (proj2 (X11_deficit_store_ranges SvK_EF_wind.script_config wstate3 1
                                dst_script_config_ok He Hi))) Hd).
Defined.










(** * Results on the columns built before [balance()] *)

Lemma zip_with_lookup_total {A B C : Type} `{Inhabited A, Inhabited B, Inhabited C}
    (f : A -> B -> C) (l : list A) (k : list B) (i : nat) :
  (i < length l)%nat -> (i < length k)%nat ->
  zip_with f l k !!! i = f (l !!! i) (k !!! i).
Proof.
  intros Hl Hk. apply list_lookup_total_correct.
  rewrite lookup_zip_with.
  rewrite (list_lookup_lookup_total_lt l i Hl), (list_lookup_lookup_total_lt k i Hk).
  reflexivity.
Qed.

Lemma hour_of_year_range value :
  0 <= hour_of_year value /\ hour_of_year value < 8784.
Proof.
  unfold hour_of_year, py_mod.
  set (x := timestamp value / 3600 - 438288 + 5880).
  pose proof (Qfloor_le (x / 8784)) as Hlo.
  pose proof (Qlt_floor (x / 8784)) as Hhi.
  rewrite inject_Z_plus in Hhi.
  change (inject_Z 1) with 1 in Hhi.
  set (q := inject_Z (Qfloor (x / 8784))) in *. clearbody q x.
  assert (Hd : x / 8784 == x * (1 # 8784)) by reflexivity.
  split; lra.
Qed.

Lemma inflow_formula_ge py_exp py_pow x :
  (forall y, 0 <= py_exp y) -> 2.8 <= inflow_formula py_exp py_pow x.
Proof.
  intros He. unfold inflow_formula.
  pose proof (He (- py_pow (x * 0.002) 0.9)) as H.
  set (e := py_exp _) in *.
  assert (Hx : 0 <= x ^ 2) by (cbn; nra).
  set (y := x ^ 2) in *. nra.
Qed.

Lemma inflow_rows py_exp py_pow dates df i :
  length dates = length df -> (i < length df)%nat ->
  inflow py_exp py_pow dates df !!! i
  = set_Inflow (df !!! i) (inflow_formula py_exp py_pow (hour_of_year (dates !!! i))).
Proof.
  intros Hlen Hi. unfold inflow.
  now rewrite zip_with_lookup_total by lia.
Qed.

Lemma sinus_rows py_sin set mean amp phase dates df i :
  length dates = length df -> (i < length df)%nat ->
  sinus py_sin set mean amp phase dates df !!! i
  = set (df !!! i) (sinus_value py_sin mean amp phase (dates !!! i)).
Proof.
  intros Hlen Hi. unfold sinus.
  now rewrite zip_with_lookup_total by lia.
Qed.

Lemma sinus_length py_sin set mean amp phase dates df :
  length dates = length df ->
  length (sinus py_sin set mean amp phase dates df) = length df.
Proof. intros H. unfold sinus. now rewrite length_zip_with_r_eq. Qed.

Lemma inflow_length py_exp py_pow dates df :
  length dates = length df -> length (inflow py_exp py_pow dates df) = length df.
Proof. intros H. unfold inflow. now rewrite length_zip_with_r_eq. Qed.

(** X14: what [inflow()] writes.  The hour of the year of every date is at
    least 0 and below 8784, so the base of [pow] is never negative; and when
    [math.exp] returns no negative float, every [Inflow] cell is at least
    2.8, while the other columns and the number of rows stay as they are. *)
Theorem X14_inflow_column (py_exp : Q -> Q) (py_pow : Q -> Q -> Q)
    (dates : list Q) (df : list hrow) :
  (forall y, 0 <= py_exp y) ->
  length dates = length df ->
  length (inflow py_exp py_pow dates df) = length df /\
  forall i, (i < length df)%nat ->
    (0 <= hour_of_year (dates !!! i) /\ hour_of_year (dates !!! i) < 8784) /\
    0 <= hour_of_year (dates !!! i) * 0.002 /\
    2.8 <= Inflow (inflow py_exp py_pow dates df !!! i) /\
    Wind (inflow py_exp py_pow dates df !!! i) = Wind (df !!! i) /\
    Tout (inflow py_exp py_pow dates df !!! i) = Tout (df !!! i) /\
    Nuclear (inflow py_exp py_pow dates df !!! i) = Nuclear (df !!! i).
Proof.
  intros He Hlen. split; [now apply inflow_length|].
  intros i Hi. rewrite inflow_rows by assumption.
  pose proof (hour_of_year_range (dates !!! i)) as (H0 & H1).
  cbn [Inflow Wind Tout Nuclear set_Inflow].
  repeat split; try assumption; try reflexivity; try lra.
  now apply inflow_formula_ge.
Qed.

(** The values of 1 January and 1 May 2020, 00:00, in nanoseconds. *)
Lemma hour_of_year_anchors :
  hour_of_year (1577836800 * 1000000000) == 5880 /\
  hour_of_year (1588291200 * 1000000000) == 0.
Proof. vm_compute. split; reflexivity. Qed.

Lemma X14_inflow_column_witness :
  2.8 <= Inflow (inflow exp_one pow_zero dates4 hframe4 !!! 1%nat).
Proof.
  assert (He : forall y, 0 <= exp_one y) by (intros y; unfold exp_one; lra).
  assert (Hl : length dates4 = length hframe4) by reflexivity.
  assert (Hi : (1 < length hframe4)%nat) by (cbn; lia).
  exact (proj1 (proj2 (proj2 (proj2 (X14_inflow_column exp_one pow_zero dates4 hframe4 He Hl)
                                      1%nat Hi)))).
Defined.

Lemma spb_prepare_length py_sin py_exp py_pow dates df :
  length dates = length df ->
  length (spb_prepare py_sin py_exp py_pow dates df) = length df.
Proof.
  intros H. unfold spb_prepare, scalewind.
  rewrite length_fmap, inflow_length; rewrite ?sinus_length; rewrite ?sinus_length; auto.
Qed.

Lemma spb_prepare_row py_sin py_exp py_pow dates df i :
  length dates = length df -> (i < length df)%nat ->
  spb_prepare py_sin py_exp py_pow dates df !!! i
  = mk_hrow (Wind (df !!! i) * spb_scale)
      (sinus_value py_sin spb_load 4 (0 * 3.14) (dates !!! i))
      (sinus_value py_sin spb_conp 2 (0 * 3.14) (dates !!! i))
      (inflow_formula py_exp py_pow (hour_of_year (dates !!! i)))
      (Store (df !!! i)) (Pout (df !!! i)) (Waout (df !!! i)) (Import (df !!! i))
      (Export (df !!! i)) (Pnet (df !!! i)) (Residual (df !!! i)) (Hydrogen (df !!! i))
      (eStore (df !!! i)).
Proof.
  intros Hlen Hi. unfold spb_prepare, scalewind.
  assert (L1 : length (sinus py_sin set_Tout spb_load 4 (0 * 3.14) dates df) = length df)
    by now apply sinus_length.
  assert (L2 : length (sinus py_sin set_Nuclear spb_conp 2 (0 * 3.14) dates
                         (sinus py_sin set_Tout spb_load 4 (0 * 3.14) dates df))
               = length df)
    by (rewrite sinus_length; congruence).
  rewrite (list_lookup_total_fmap (fun r => set_Wind r (Wind r * spb_scale)) _ i)
    by (rewrite inflow_length; congruence || lia).
  rewrite inflow_rows by (congruence || lia).
  rewrite sinus_rows by (congruence || lia).
  rewrite sinus_rows by (congruence || lia).
  reflexivity.
Qed.

(** X15: the frame the main script of the reservoir variants hands to
    [balance()].  When [math.sin] returns floats between -1 and 1 and
    [math.exp] none below 0, then in every row the target load [Tout] is
    between 31.3 and 39.3, the constant power [Nuclear] between 5.2 and 9.2,
    the load exceeds the constant power by 26.1 to 30.1 (both follow the
    same sine), the inflow is at least 2.8 and [Wind] is six times the wind
    read from the file; no row is added or dropped. *)
Theorem X15_prepared_frame (py_sin py_exp : Q -> Q) (py_pow : Q -> Q -> Q)
    (dates : list Q) (df : list hrow) :
  (forall y, -1 <= py_sin y /\ py_sin y <= 1) ->
  (forall y, 0 <= py_exp y) ->
  length dates = length df ->
  length (spb_prepare py_sin py_exp py_pow dates df) = length df /\
  forall i, (i < length df)%nat ->
    let r := spb_prepare py_sin py_exp py_pow dates df !!! i in
    Wind r = Wind (df !!! i) * 6 /\
    (31.3 <= Tout r /\ Tout r <= 39.3) /\
    (5.2 <= Nuclear r /\ Nuclear r <= 9.2) /\
    (26.1 <= Tout r - Nuclear r /\ Tout r - Nuclear r <= 30.1) /\
    2.8 <= Inflow r.
Proof.
  intros Hs He Hlen. split; [now apply spb_prepare_length|].
  intros i Hi r. unfold r. rewrite spb_prepare_row by assumption.
  cbn [Wind Tout Nuclear Inflow]. unfold sinus_value.
  destruct (Hs (dates !!! i / 5000000000000000 + 0 * 3.14)) as (S0 & S1).
  set (sv := py_sin _) in *.
  pose proof (inflow_formula_ge py_exp py_pow (hour_of_year (dates !!! i)) He) as Hin.
  unfold spb_load, spb_conp, spb_scale. cbn [constexp SwedenPowerBalance.config].
  repeat split; try reflexivity; lra.
Qed.

Lemma sin_zero_unit y : -1 <= sin_zero y /\ sin_zero y <= 1.
Proof. unfold sin_zero. split; lra. Qed.

Lemma exp_one_nonneg y : 0 <= exp_one y.
Proof. unfold exp_one. lra. Qed.

Lemma X15_prepared_frame_witness :
  31.3 <= Tout (spb_prepare sin_zero exp_one pow_zero dates4 hframe4 !!! 2%nat) /\
  Tout (spb_prepare sin_zero exp_one pow_zero dates4 hframe4 !!! 2%nat) <= 39.3.
Proof.
  assert (Hl : length dates4 = length hframe4) by reflexivity.
  assert (Hi : (2 < length hframe4)%nat) by (cbn; lia).
  exact (proj1 (proj2 (proj2 (X15_prepared_frame sin_zero exp_one pow_zero dates4 hframe4
                                 sin_zero_unit exp_one_nonneg Hl) 2%nat Hi))).
Defined.

Lemma hsim_fields gain b out i :
  h2_rows gain b out -> (i < length b)%nat ->
  Store (out !!! i) = Store (b !!! i) /\ Waout (out !!! i) = Waout (b !!! i) /\
  Import (out !!! i) = Import (b !!! i) /\ Export (out !!! i) = Export (b !!! i).
Proof.
  intros Hh Hi. destruct (h2_rows_hkey gain b out i Hh Hi) as (x & y & ->).
  repeat split; reflexivity.
Qed.

(** X16: the main scripts of the reservoir variants end to end, with their
    own constants.  Whatever the wind data, the dates and the random stream,
    when [math.exp] returns no negative float the finished frame of
    [SwedenPowerBalance.py] and of [SE300wind.py] has in every row a
    reservoir level of at least 2, an import between 0 and 6 and an export
    between 0 and 6: [inflow()] supplies the inflow that [balance()]
    needs. *)
Theorem X16_main_within_limits (py_sin py_exp : Q -> Q) (py_pow : Q -> Q -> Q)
    (mt : Z -> nat -> Q) (dates : list Q) (st : hstate) :
  (forall y, 0 <= py_exp y) ->
  length dates = length (h_df st) ->
  (forall i, (i < length (h_df st))%nat ->
     let r := spb_main py_sin py_exp py_pow mt dates st !!! i in
     2 <= Store r /\ (0 <= Import r /\ Import r <= 6) /\ (0 <= Export r /\ Export r <= 6)) /\
  (forall i, (i < length (h_df st))%nat ->
     let r := se3_main py_sin py_exp py_pow mt dates st !!! i in
     2 <= Store r /\ (0 <= Import r /\ Import r <= 6) /\ (0 <= Export r /\ Export r <= 6)).
Proof.
  intros He Hlen.
  set (p := spb_prepare py_sin py_exp py_pow dates (h_df st)).
  assert (Hp : length p = length (h_df st)) by now apply spb_prepare_length.
  assert (Hin : forall j, (j < length (h_df (mk_hstate p (h_gen st))))%nat ->
                  2.8 <= Inflow (h_df (mk_hstate p (h_gen st)) !!! j)).
  { cbn [h_df]. intros j Hj. unfold p. rewrite spb_prepare_row by (congruence || lia).
    cbn [Inflow]. now apply inflow_formula_ge. }
  destruct script_config_ok as (Hc1 & Hc2).
  split; intros i Hi r.
  - pose proof (spb_balance_rows SwedenPowerBalance.config mt (mk_hstate p (h_gen st))) as Hb.
    pose proof (spb_hydrogen_rows
                  (h_df (SwedenPowerBalance.balance SwedenPowerBalance.config mt
                           (mk_hstate p (h_gen st))))) as Hh.
    assert (Hi' : (i < length (h_df (mk_hstate p (h_gen st))))%nat) by (cbn [h_df]; lia).
    destruct (hsim_fields _ _ _ i Hh) as (E1 & _ & E3 & E4).
    { destruct Hb as (-> & _). exact Hi'. }
    unfold r, spb_main, SwedenPowerBalance.simulate. fold p. rewrite E1, E3, E4.
    split.
    + apply (hrows_store_ge_2 _ _ mt _ _ Hb
               (fun w l n o e u => spb_water_le _ w l n o e u Hc1)
               (inflow_ge_2 _ Hin) i Hi').
    + exact (spb_import_export SwedenPowerBalance.config mt _ i Hc1 Hin Hi').
  - pose proof (se3_balance_rows SE300wind.config mt (mk_hstate p (h_gen st))) as Hb.
    pose proof (se3_hydrogen_rows SE300wind.elyscap
                  (h_df (SE300wind.balance SE300wind.config mt
                           (mk_hstate p (h_gen st))))) as Hh.
    assert (Hi' : (i < length (h_df (mk_hstate p (h_gen st))))%nat) by (cbn [h_df]; lia).
    destruct (hsim_fields _ _ _ i Hh) as (E1 & _ & E3 & E4).
    { destruct Hb as (-> & _). exact Hi'. }
    unfold r, se3_main, SE300wind.simulate. fold p. rewrite E1, E3, E4.
    split.
    + apply (hrows_store_ge_2 _ _ mt _ _ Hb
               (fun w l n o e u => se3_water_le _ w l n o e u Hc2)
               (inflow_ge_2 _ Hin) i Hi').
    + exact (se3_import_export SE300wind.config mt _ i Hc2 Hin Hi').
Qed.

Lemma X16_main_within_limits_witness :
  2 <= Store (spb_main sin_zero exp_one pow_zero half_stream dates4 hstate4 !!! 3%nat).
Proof.
  assert (Hl : length dates4 = length (h_df hstate4)) by reflexivity.
  assert (Hi : (3 < length (h_df hstate4))%nat) by (cbn; lia).
  exact (proj1 (proj1 (X16_main_within_limits sin_zero exp_one pow_zero half_stream
                         dates4 hstate4 exp_one_nonneg Hl) 3%nat Hi)).
Defined.

(** X17: the part of the hydro bounds that both reservoir variants keep.
    With capacities that are not negative, [wlim >= 2] and the inflow of at
    least 2.8, the hydro power written for an hour [i >= 1] is at most
    [wlim] and at most the level of the hour before; it is at least 0 in
    [SwedenPowerBalance.py] and at least 2 in [SE300wind.py]. *)
Theorem X17_waout_bounds c mt st i :
  hconfig_ok c ->
  (forall j, (j < length (h_df st))%nat -> 2.8 <= Inflow (h_df st !!! j)) ->
  (1 <= i < length (h_df st))%nat ->
  (0 <= Waout (h_df (SwedenPowerBalance.balance c mt st) !!! i) /\
   Waout (h_df (SwedenPowerBalance.balance c mt st) !!! i) <= wlim c /\
   Waout (h_df (SwedenPowerBalance.balance c mt st) !!! i)
   <= Store (h_df (SwedenPowerBalance.balance c mt st) !!! (i - 1)%nat)) /\
  (2 <= Waout (h_df (SE300wind.balance c mt st) !!! i) /\
   Waout (h_df (SE300wind.balance c mt st) !!! i) <= wlim c /\
   Waout (h_df (SE300wind.balance c mt st) !!! i)
   <= Store (h_df (SE300wind.balance c mt st) !!! (i - 1)%nat)).
Proof.
  intros Hc Hin Hi. split.
  - now apply spb_waout_upper.
  - now apply se3_waout_bounds.
Qed.

Lemma X17_waout_bounds_witness :
  0 <= Waout (h_df (SwedenPowerBalance.balance SwedenPowerBalance.config half_stream hstate4) !!! 2%nat) /\
  Waout (h_df (SwedenPowerBalance.balance SwedenPowerBalance.config half_stream hstate4) !!! 2%nat)
  <= wlim SwedenPowerBalance.config /\
  Waout (h_df (SwedenPowerBalance.balance SwedenPowerBalance.config half_stream hstate4) !!! 2%nat)
  <= Store (h_df (SwedenPowerBalance.balance SwedenPowerBalance.config half_stream hstate4) !!! 1%nat).
Proof.
  assert (Hi : (1 <= 2 < length (h_df hstate4))%nat) by (cbn; lia).
  exact (proj1 (X17_waout_bounds SwedenPowerBalance.config half_stream hstate4 2
                  (proj1 script_config_ok) hframe4_inflow Hi)).
Defined.

(** * The ideal energy store of [estore()] *)




